(** * SCGV main window: background model loading and toolbar controllers

    A shallow embedding of [scgv/qtviews/main_window.py]: the generic
    [Worker] that runs a callable on a pool thread and reports through
    signals, the [OpenButtons] and [ActionButtons] toolbar controllers and
    [MainWindow.set_model] / [MainWindow.update].

    Python code is embedded in a state-and-exception monad.  Widget calls,
    prints and signal emissions are recorded, in order, in a trace, so that
    "exactly once", "followed by" and "not invoked" are statements about a
    list.  Model objects live in a heap and are held by reference, as the
    window and the action buttons share one object. *)

From Stdlib Require Import ZArith.
From stdpp Require Import base option list strings.

Open Scope string_scope.
Open Scope list_scope.

(** ** Python values and exceptions *)

(** A reference to a [DataModel] object: its index in the heap. *)
Definition ref : Type := nat.

#[local] Unset Elimination Schemes.
Inductive pyval : Type :=
| PyNone
| PyStr (s : string)
| PyInt (n : Z)
| PyList (items : list pyval)
| PyTuple (items : list pyval)
| PyDict (items : list (string * pyval))
| PySignal (name : string)
| PyModel (r : ref).
#[local] Set Elimination Schemes.

(** [model is None] *)
Definition is_None (v : pyval) : bool :=
  match v with PyNone => true | _ => false end.

(** [v == str()], comparison with the empty string *)
Definition eq_empty_str (v : pyval) : bool :=
  match v with PyStr s => bool_decide (s = EmptyString) | _ => false end.

(** The built-in exception hierarchy: [SystemExit], [KeyboardInterrupt] and
    [GeneratorExit] derive from [BaseException] only; everything else
    derives from [Exception]. *)
Inductive exc_class : Type :=
| SystemExit
| KeyboardInterrupt
| GeneratorExit
| ExceptionClass (name : string).

Record exc : Type := Exc {
  exc_type : exc_class;
  exc_args : string;
  exc_tb : list string
}.

(** What an [except Exception:] clause matches. *)
Definition isinstance_Exception (e : exc) : bool :=
  match exc_type e with ExceptionClass _ => true | _ => false end.

Inductive outcome (A : Type) : Type :=
| Returns (a : A)
| Raises (e : exc).
Arguments Returns {A} a.
Arguments Raises {A} e.

(** ** The external data model *)

(** The attributes of a [DataModel] object that the window code reads or
    writes ([model.data.guide_df] and [model.data.features_df] are kept
    flat). *)
Record DataModel : Type := mkDataModel {
  selected_tracks : list string;
  guide_df : pyval;
  features_df : pyval
}.

(** The collaborators that are imported, not defined, by the module:
    the [DataModel] constructor, [DataModel.make],
    [DataModel.update_selected_tracks] and [traceback.format_exc]. *)
Class Collaborators : Type := {
  DataModel_init : pyval -> outcome DataModel;
  DataModel_make : DataModel -> outcome DataModel;
  DataModel_update_selected_tracks : DataModel -> DataModel;
  format_exc : exc -> string
}.

(** ** Signals, widgets and the trace *)

(** An emitted signal with its payload, after [WorkerSignals]:
    [finished = pyqtSignal()], [progress = pyqtSignal(int)],
    [error = pyqtSignal(tuple)], [result = pyqtSignal(object)],
    [status = pyqtSignal(object)]. *)
Inductive signal : Type :=
| Finished
| Progress (n : Z)
| Error (payload : exc_class * exc * string)
| Result (v : pyval)
| Status (v : pyval).

Inductive action : Type :=
| open_dir_action
| open_archive_action
| feature_view_action
| configure_tracks_action.

Inductive effect : Type :=
| SetEnabled (a : action) (b : bool)
| Print (objs : list pyval)
| PrintExc (e : exc)
| Emit (s : signal)
| ThreadpoolStart (args : list pyval)
| MainUpdate
| SuperUpdate
| UpdateSelectedTracks (r : ref).

(** The state the UI code reads and writes. *)
Record World : Type := mkWorld {
  open_dir_enabled : bool;
  open_archive_enabled : bool;
  feature_view_enabled : bool;
  configure_tracks_enabled : bool;
  main_model : pyval;
  action_model : pyval;
  heap : list DataModel;
  trace : list effect
}.

(** ** The monad of Python code over a state [S] *)

Definition Py (S A : Type) : Type := S -> outcome A * S.

#[export] Instance Py_ret {S} : MRet (Py S) :=
  fun A a s => (Returns a, s).

#[export] Instance Py_bind {S} : MBind (Py S) :=
  fun A B k m s =>
    match m s with
    | (Returns a, s1) => k a s1
    | (Raises e, s1) => (Raises e, s1)
    end.

Definition raise {S A} (e : exc) : Py S A := fun s => (Raises e, s).

Definition modify {S} (f : S -> S) : Py S unit := fun s => (Returns tt, f s).

Definition gets {S A} (f : S -> A) : Py S A := fun s => (Returns (f s), s).

(** [try: body / except Exception: handler] *)
Definition try_except {S A} (body : Py S A) (handler : exc -> Py S A)
  : Py S A :=
  fun s =>
    match body s with
    | (Returns a, s1) => (Returns a, s1)
    | (Raises e, s1) =>
        if isinstance_Exception e then handler e s1 else (Raises e, s1)
    end.

(** [try: body / except Exception: handler / else: orelse / finally: final].
    The [else] suite runs outside the handler's protection; the [finally]
    suite always runs, and a pending exception is raised again after it. *)
Definition try_except_else_finally {S A}
    (body : Py S A) (handler : exc -> Py S unit)
    (orelse : A -> Py S unit) (final : Py S unit) : Py S unit :=
  fun s =>
    let '(o, s1) :=
      match body s with
      | (Returns a, s1) => orelse a s1
      | (Raises e, s1) =>
          if isinstance_Exception e then handler e s1 else (Raises e, s1)
      end in
    match final s1 with
    | (Returns _, s2) => (o, s2)
    | (Raises e, s2) => (Raises e, s2)
    end.

(** ** Primitive operations on the world *)

Definition log_effect (e : effect) (w : World) : World :=
  mkWorld (open_dir_enabled w) (open_archive_enabled w)
          (feature_view_enabled w) (configure_tracks_enabled w)
          (main_model w) (action_model w) (heap w) (trace w ++ [e]).

Definition with_enabled (a : action) (b : bool) (w : World) : World :=
  mkWorld
    (match a with open_dir_action => b | _ => open_dir_enabled w end)
    (match a with open_archive_action => b | _ => open_archive_enabled w end)
    (match a with feature_view_action => b | _ => feature_view_enabled w end)
    (match a with
     | configure_tracks_action => b
     | _ => configure_tracks_enabled w
     end)
    (main_model w) (action_model w) (heap w) (trace w).

Definition with_main_model (v : pyval) (w : World) : World :=
  mkWorld (open_dir_enabled w) (open_archive_enabled w)
          (feature_view_enabled w) (configure_tracks_enabled w)
          v (action_model w) (heap w) (trace w).

Definition with_action_model (v : pyval) (w : World) : World :=
  mkWorld (open_dir_enabled w) (open_archive_enabled w)
          (feature_view_enabled w) (configure_tracks_enabled w)
          (main_model w) v (heap w) (trace w).

Definition with_heap (h : list DataModel) (w : World) : World :=
  mkWorld (open_dir_enabled w) (open_archive_enabled w)
          (feature_view_enabled w) (configure_tracks_enabled w)
          (main_model w) (action_model w) h (trace w).

(** [print(objs...)] *)
Definition print (objs : list pyval) : Py World unit :=
  modify (log_effect (Print objs)).

(** [QAction.setEnabled(b)] *)
Definition setEnabled (a : action) (b : bool) : Py World unit :=
  modify (fun w => log_effect (SetEnabled a b) (with_enabled a b w)).

Definition AttributeError : exc :=
  Exc (ExceptionClass "AttributeError") "object has no such attribute" [].

Definition TypeError : exc :=
  Exc (ExceptionClass "TypeError") "missing required positional argument" [].

(** Attribute access [v.attr] on something expected to be a model: [None],
    strings and the like have no such attribute. *)
Definition deref (v : pyval) : Py World (ref * DataModel) :=
  fun w =>
    match v with
    | PyModel r =>
        match heap w !! r with
        | Some m => (Returns (r, m), w)
        | None => (Raises AttributeError, w)
        end
    | _ => (Raises AttributeError, w)
    end.

(** ** Worker signals, workers and the running system *)

(** The slots connected to each signal of one [WorkerSignals] object, in
    connection order. *)
Record WorkerSignals : Type := mkSignals {
  finished : list (Py World unit);
  progress : list (Z -> Py World unit);
  error : list (exc_class * exc * string -> Py World unit);
  result : list (pyval -> Py World unit);
  status : list (pyval -> Py World unit)
}.

(** A Python callable taking positional and keyword arguments. *)
Definition callable : Type :=
  list pyval -> list (string * pyval) -> Py World pyval.

Record Worker : Type := mkWorker {
  fn : callable;
  args : list pyval;
  kwargs : list (string * pyval);
  signals : WorkerSignals
}.

(** The world together with the workers handed to the thread pool and the
    signal emissions queued for the UI thread. *)
Record System : Type := mkSystem {
  world : World;
  threadpool : list Worker;
  events : list (WorkerSignals * signal)
}.

(** Code that only touches the world, run inside the system. *)
Definition in_world {A} (m : Py World A) : Py System A :=
  fun st =>
    let '(o, w) := m (world st) in
    (o, mkSystem w (threadpool st) (events st)).

(** [sg.<signal>.emit(payload)]: the emission is queued for the UI thread;
    it does not raise. *)
Definition emit (sg : WorkerSignals) (s : signal) : Py System unit :=
  modify (fun st =>
    mkSystem (log_effect (Emit s) (world st)) (threadpool st)
             (events st ++ [(sg, s)])).

(** [traceback.print_exc()] *)
Definition print_exc (e : exc) : Py World unit :=
  modify (log_effect (PrintExc e)).

(** [Worker.__init__]: a fresh [WorkerSignals] with nothing connected. *)
Definition Worker_init (f : callable) (a : list pyval)
    (kw : list (string * pyval)) : Worker :=
  mkWorker f a kw (mkSignals [] [] [] [] []).

Definition connect_result (slot : pyval -> Py World unit) (w : Worker)
  : Worker :=
  let sg := signals w in
  mkWorker (fn w) (args w) (kwargs w)
    (mkSignals (finished sg) (progress sg) (error sg)
               (result sg ++ [slot]) (status sg)).

Definition connect_error
    (slot : exc_class * exc * string -> Py World unit) (w : Worker)
  : Worker :=
  let sg := signals w in
  mkWorker (fn w) (args w) (kwargs w)
    (mkSignals (finished sg) (progress sg) (error sg ++ [slot])
               (result sg) (status sg)).

Definition connect_finished (slot : Py World unit) (w : Worker) : Worker :=
  let sg := signals w in
  mkWorker (fn w) (args w) (kwargs w)
    (mkSignals (finished sg ++ [slot]) (progress sg) (error sg)
               (result sg) (status sg)).

(** The keyword arguments [run] adds to every call:
    [status=self.signals.status, progress=self.signals.progress]. *)
Definition signal_kwargs : list (string * pyval) :=
  [("status", PySignal "status"); ("progress", PySignal "progress")].

Section Program.
Context `{Collab : Collaborators}.

(** The call [self.fn(args..., kwargs..., status=self.signals.status,
    progress=self.signals.progress)]. *)
Definition Worker_call (self : Worker) : Py World pyval :=
  fn self (args self) (kwargs self ++ signal_kwargs).

(** [Worker.run] *)
Definition Worker_run (self : Worker) : Py System unit :=
  try_except_else_finally
    (in_world (Worker_call self))
    (fun e =>
       in_world (print_exc e) ;;
       let exctype := exc_type e in
       let value := e in
       emit (signals self) (Error (exctype, value, format_exc e)))
    (fun result => emit (signals self) (Result result))
    (emit (signals self) Finished).

(** [QThreadPool.start(worker)] *)
Definition QThreadPool_start (worker : Worker) : Py System unit :=
  modify (fun st =>
    mkSystem (log_effect (ThreadpoolStart (args worker)) (world st))
             (threadpool st ++ [worker]) (events st)).

(** The pool runs the oldest worker it was handed. *)
Definition pool_step : Py System unit :=
  fun st =>
    match threadpool st with
    | [] => (Returns tt, st)
    | worker :: rest =>
        Worker_run worker (mkSystem (world st) rest (events st))
    end.

Fixpoint call_slots {A} (slots : list (A -> Py World unit)) (a : A)
  : Py World unit :=
  match slots with
  | [] => mret tt
  | slot :: rest => slot a ;; call_slots rest a
  end.

(** The UI thread delivers one queued emission to the connected slots. *)
Definition deliver (ev : WorkerSignals * signal) : Py World unit :=
  let '(sg, s) := ev in
  match s with
  | Finished => call_slots ((fun slot (_ : unit) => slot) <$> finished sg) tt
  | Progress n => call_slots (progress sg) n
  | Error payload => call_slots (error sg) payload
  | Result v => call_slots (result sg) v
  | Status v => call_slots (status sg) v
  end.

Fixpoint deliver_all (evs : list (WorkerSignals * signal)) : Py World unit :=
  match evs with
  | [] => mret tt
  | ev :: rest => deliver ev ;; deliver_all rest
  end.

(** The UI thread delivers the queued emissions in emission order. *)
Definition process_events : Py System unit :=
  fun st =>
    let '(o, w) := deliver_all (events st) (world st) in
    (o, mkSystem w (threadpool st) []).

(** ** Model objects in the heap *)

(** [DataModel(filename)]: a new object, or the constructor's exception. *)
Definition DataModel_new (filename : pyval) : Py World pyval :=
  fun w =>
    match DataModel_init filename with
    | Returns m =>
        (Returns (PyModel (length (heap w))), with_heap (heap w ++ [m]) w)
    | Raises e => (Raises e, w)
    end.

(** [model.make()]: updates the object in place, or raises. *)
Definition DataModel_make_call (model : pyval) : Py World unit :=
  '(r, m) ← deref model;
  match DataModel_make m with
  | Returns m' => modify (fun w => with_heap (<[r:=m']> (heap w)) w)
  | Raises e => raise e
  end.

(** [model.selected_tracks = selected_tracks] *)
Definition set_selected_tracks (model : pyval) (sel : list string)
  : Py World unit :=
  '(r, m) ← deref model;
  modify (fun w =>
    with_heap (<[r:=mkDataModel sel (guide_df m) (features_df m)]> (heap w))
              w).

(** [model.update_selected_tracks()] *)
Definition update_selected_tracks_call (model : pyval) : Py World unit :=
  '(r, m) ← deref model;
  modify (fun w =>
    log_effect (UpdateSelectedTracks r)
      (with_heap (<[r:=DataModel_update_selected_tracks m]> (heap w)) w)).

(** ** MainWindow and ActionButtons *)

(** [MainWindow.update]: [self._main.update()], then the [QMainWindow]
    one. *)
Definition MainWindow_update : Py World unit :=
  modify (log_effect MainUpdate) ;;
  modify (log_effect SuperUpdate).

(** [ActionButtons.set_model] *)
Definition ActionButtons_set_model (model : pyval) : Py World unit :=
  modify (with_action_model model).

(** Modelled from the spec: [BaseHeatmapWidget.set_model], called as
    [self._main.set_model(model)], is not among the sources; the central
    widget keeps the model reference it is handed. *)
Definition BaseHeatmapWidget_set_model (model : pyval) : Py World unit :=
  modify (with_main_model model).

(** [MainWindow.set_model] *)
Definition MainWindow_set_model (model : pyval) : Py World unit :=
  if is_None model then mret tt
  else
    BaseHeatmapWidget_set_model model ;;
    ActionButtons_set_model model.

(** [ActionButtons.on_selected_tracks_change] *)
Definition ActionButtons_on_selected_tracks_change (sel : list string)
  : Py World unit :=
  print [PyStr "on_selected_tracks_change:"; PyList (PyStr <$> sel);
         PyTuple []; PyDict []] ;;
  self_model ← gets action_model;
  '(_, m) ← deref self_model;
  if bool_decide (sel = selected_tracks m) then mret tt
  else
    set_selected_tracks self_model sel ;;
    update_selected_tracks_call self_model ;;
    MainWindow_update.

(** ** OpenButtons *)

(** [OpenButtons._load_complete] *)
Definition OpenButtons__load_complete : Py World unit :=
  MainWindow_update.

(** [OpenButtons._load_error] *)
Definition OpenButtons__load_error : Py World unit :=
  setEnabled open_archive_action true ;;
  setEnabled open_dir_action true.

(** [OpenButtons._build_model] *)
Definition OpenButtons__build_model : callable :=
  fun a kw =>
    match a with
    | [] => raise TypeError
    | filename :: _ =>
        try_except
          (model ← DataModel_new filename;
           DataModel_make_call model ;;
           mret model)
          (fun _ => OpenButtons__load_error ;; mret PyNone)
    end.

(** [OpenButtons.load_model] *)
Definition OpenButtons_load_model (filename : pyval) : Py System unit :=
  in_world (setEnabled open_archive_action false) ;;
  in_world (setEnabled open_dir_action false) ;;
  let worker := Worker_init OpenButtons__build_model [filename] [] in
  let worker := connect_result MainWindow_set_model worker in
  let worker := connect_error (fun _ => OpenButtons__load_error) worker in
  let worker := connect_finished OpenButtons__load_complete worker in
  QThreadPool_start worker.

(** [OpenButtons.on_open_directory_click]; [dialog] is what
    [QFileDialog.getExistingDirectory] returned. *)
Definition OpenButtons_on_open_directory_click (s dialog : pyval)
  : Py System unit :=
  let dirname := dialog in
  if is_None dirname || eq_empty_str dirname then
    in_world (print [PyStr "open directory canceled..."])
  else OpenButtons_load_model dirname.

(** [OpenButtons.on_open_archive_click]; [dialog] is the pair that
    [QFileDialog.getOpenFileName] returned. *)
Definition OpenButtons_on_open_archive_click (s : pyval)
    (dialog : pyval * pyval) : Py System unit :=
  let '(filename, _) := dialog in
  if is_None filename || eq_empty_str filename then
    in_world (print [PyStr "open archive canceled..."])
  else OpenButtons_load_model filename.

(** A whole load, as the threads run it: the click handler's
    [load_model] on the UI thread, the worker on a pool thread, then the
    queued emissions delivered on the UI thread. *)
Definition load (filename : pyval) : Py System unit :=
  OpenButtons_load_model filename ;;
  pool_step ;;
  process_events.

End Program.

(** ** Reading traces and final states *)

(** The state a computation leaves behind. *)
Definition exec {S A} (m : Py S A) (s : S) : S := snd (m s).

(** What was appended to the trace between two worlds. *)
Definition effects_since (w w' : World) : list effect :=
  drop (length (trace w)) (trace w').

Definition count_effects (p : effect -> bool) (l : list effect) : nat :=
  length (List.filter p l).

Definition action_eqb (a b : action) : bool :=
  match a, b with
  | open_dir_action, open_dir_action
  | open_archive_action, open_archive_action
  | feature_view_action, feature_view_action
  | configure_tracks_action, configure_tracks_action => true
  | _, _ => false
  end.

(** [setEnabled(b)] on action [a] *)
Definition is_set_enabled (a : action) (b : bool) (e : effect) : bool :=
  match e with
  | SetEnabled a' b' => action_eqb a a' && Bool.eqb b b'
  | _ => false
  end.

Definition is_error_emit (e : effect) : bool :=
  match e with Emit (Error _) => true | _ => false end.

Definition is_result_emit (e : effect) : bool :=
  match e with Emit (Result _) => true | _ => false end.

Definition is_finished_emit (e : effect) : bool :=
  match e with Emit Finished => true | _ => false end.

Definition is_print_exc (e : effect) : bool :=
  match e with PrintExc _ => true | _ => false end.

Definition is_threadpool_start (e : effect) : bool :=
  match e with ThreadpoolStart _ => true | _ => false end.

Definition is_update (e : effect) : bool :=
  match e with
  | MainUpdate | SuperUpdate | UpdateSelectedTracks _ => true
  | _ => false
  end.

(** Nothing is running and nothing is waiting for the UI thread. *)
Definition quiescent (st : System) : Prop :=
  threadpool st = [] /\ events st = [].

Section Construction.
Context `{Collab : Collaborators}.

(** Model construction as [_build_model] performs it:
    [model = DataModel(filename); model.make()]. *)
Definition construct (filename : pyval) : outcome DataModel :=
  match DataModel_init filename with
  | Returns m => DataModel_make m
  | Raises e => Raises e
  end.

(** The object a failed [make] leaves behind, unreachable, in the heap. *)
Definition leftover (filename : pyval) : list DataModel :=
  match DataModel_init filename with
  | Returns m =>
      match DataModel_make m with
      | Returns _ => []
      | Raises _ => [m]
      end
  | Raises _ => []
  end.

(** The worker [load_model] hands to the pool. *)
Definition load_worker (filename : pyval) : Worker :=
  connect_finished OpenButtons__load_complete
    (connect_error (fun _ => OpenButtons__load_error)
       (connect_result MainWindow_set_model
          (Worker_init OpenButtons__build_model [filename] []))).

(** The world once [load_model] has returned. *)
Definition world_started (filename : pyval) (w : World) : World :=
  mkWorld false false (feature_view_enabled w) (configure_tracks_enabled w)
    (main_model w) (action_model w) (heap w)
    (trace w ++ [SetEnabled open_archive_action false;
                 SetEnabled open_dir_action false;
                 ThreadpoolStart [filename]]).

(** The world after a load whose construction returned [m']. *)
Definition world_loaded (filename : pyval) (m' : DataModel) (w : World)
  : World :=
  let r := length (heap w) in
  mkWorld false false (feature_view_enabled w) (configure_tracks_enabled w)
    (PyModel r) (PyModel r) (heap w ++ [m'])
    (trace w ++ [SetEnabled open_archive_action false;
                 SetEnabled open_dir_action false;
                 ThreadpoolStart [filename];
                 Emit (Result (PyModel r));
                 Emit Finished;
                 MainUpdate; SuperUpdate]).

(** The world after a load whose construction raised an [Exception]. *)
Definition world_failed (filename : pyval) (w : World) : World :=
  mkWorld true true (feature_view_enabled w) (configure_tracks_enabled w)
    (main_model w) (action_model w) (heap w ++ leftover filename)
    (trace w ++ [SetEnabled open_archive_action false;
                 SetEnabled open_dir_action false;
                 ThreadpoolStart [filename];
                 SetEnabled open_archive_action true;
                 SetEnabled open_dir_action true;
                 Emit (Result PyNone);
                 Emit Finished;
                 MainUpdate; SuperUpdate]).

(** *** The spec's sentences, as written

    Three sentences of the specification describe a different design from
    the one the code has; they are stated here so that they can be
    evaluated on a concrete load. *)

(** "A successful load disables then re-enables the relevant buttons
    exactly once." *)
Definition reenabled_exactly_once (filename : pyval) (st : System) : Prop :=
  let started := world (exec (OpenButtons_load_model filename) st) in
  let added := effects_since (world st) (world (exec (load filename) st)) in
  open_dir_enabled started = false /\
  open_archive_enabled started = false /\
  count_effects (is_set_enabled open_dir_action true) added = 1 /\
  count_effects (is_set_enabled open_archive_action true) added = 1.

(** "A failing load emits exactly one error event and one finished event,
    and leaves buttons enabled." *)
Definition one_error_one_finished (filename : pyval) (st : System) : Prop :=
  let done := world (exec (load filename) st) in
  let added := effects_since (world st) done in
  count_effects is_error_emit added = 1 /\
  count_effects is_finished_emit added = 1 /\
  open_dir_enabled done = true /\
  open_archive_enabled done = true.

(** "All exceptions during model construction are caught at the worker
    boundary, printed to a trace log, and surfaced as a generic error
    event."  Caught at [Worker.run] means that the call itself raises. *)
Definition caught_at_worker_boundary (self : Worker) (st : System)
    (e : exc) : Prop :=
  let added := effects_since (world st) (world (exec (Worker_run self) st)) in
  fst (Worker_call self (world st)) = Raises e /\
  count_effects is_print_exc added = 1 /\
  count_effects is_error_emit added = 1.

End Construction.

(** Every component but the trace is the same. *)
Definition same_state (w w' : World) : Prop :=
  open_dir_enabled w' = open_dir_enabled w /\
  open_archive_enabled w' = open_archive_enabled w /\
  feature_view_enabled w' = feature_view_enabled w /\
  configure_tracks_enabled w' = configure_tracks_enabled w /\
  main_model w' = main_model w /\
  action_model w' = action_model w /\
  heap w' = heap w.

(** ** Concrete collaborators and states, for evaluation *)

Definition ValueError : exc :=
  Exc (ExceptionClass "ValueError") "not a dataset" ["model.py"].

Definition sample_made : DataModel :=
  mkDataModel ["chrom"; "ploidy"] (PyStr "guide") (PyStr "features").

(** A data model whose constructor rejects the path [missing] and whose
    [make] rejects the archive [broken.zip]. *)
Definition sample_collab : Collaborators := {|
  DataModel_init := fun filename =>
    match filename with
    | PyStr s =>
        if String.eqb s "missing" then Raises ValueError
        else Returns (mkDataModel [s] PyNone PyNone)
    | _ => Raises TypeError
    end;
  DataModel_make := fun m =>
    if bool_decide (selected_tracks m = ["broken.zip"]) then Raises ValueError
    else Returns sample_made;
  DataModel_update_selected_tracks := fun m => m;
  format_exc := fun e => exc_args e
|}.

(** A fresh window: everything enabled, no model. *)
Definition world0 : World :=
  mkWorld true true true true PyNone PyNone [] [].

Definition system0 : System := mkSystem world0 [] [].

(** A window that already shows a model. *)
Definition world1 : World :=
  mkWorld false false true true (PyModel 0) (PyModel 0) [sample_made] [].

Definition system1 : System := mkSystem world1 [] [].

(** A worker whose callable raises. *)
Definition raising_worker : Worker :=
  Worker_init (fun _ _ => raise ValueError) [] [].

(** A worker whose callable returns its first argument. *)
Definition echo_worker : Worker :=
  Worker_init (fun a _ => mret (hd PyNone a)) [PyInt 7] [].

(** ** Threads running to completion *)

Section Threads.
Context `{Collab : Collaborators}.

(** The pool runs its oldest worker and the UI thread then delivers what
    was queued.  An exception that leaves [Worker.run] ends the pool
    thread's task; it does not stop the UI thread. *)
Definition run_threads (st : System) : System :=
  exec process_events (exec pool_step st).

(** The world after the pool thread has run a load whose construction
    raised something that is not an [Exception]: nothing has caught it. *)
Definition world_escaped (filename : pyval) (w : World) : World :=
  mkWorld false false (feature_view_enabled w) (configure_tracks_enabled w)
    (main_model w) (action_model w) (heap w ++ leftover filename)
    (trace w ++ [SetEnabled open_archive_action false;
                 SetEnabled open_dir_action false;
                 ThreadpoolStart [filename];
                 Emit Finished]).

End Threads.

(** A data model whose [make] calls [sys.exit]. *)
Definition SystemExit_0 : exc := Exc SystemExit "0" [].

Definition exiting_collab : Collaborators := {|
  DataModel_init := fun filename => Returns (mkDataModel [] filename PyNone);
  DataModel_make := fun _ => Raises SystemExit_0;
  DataModel_update_selected_tracks := fun m => m;
  format_exc := fun e => exc_args e
|}.

(** A worker whose callable calls [sys.exit]. *)
Definition exiting_worker : Worker :=
  Worker_init (fun _ _ => raise SystemExit_0) [] [].

(** "On failure: publishes an error event carrying the exception type,
    value, and formatted trace; still publishes finished afterward", read
    for every exception [e] the callable raises: after the call, [run]
    emits the error event with the triple, then finished, and nothing
    else. *)
Definition error_then_finished `{Collab : Collaborators} (self : Worker)
    (st : System) (e : exc) : Prop :=
  effects_since (snd (Worker_call self (world st)))
    (world (exec (Worker_run self) st)) =
    [PrintExc e; Emit (Error (exc_type e, e, format_exc e)); Emit Finished]
  /\
  count_effects is_error_emit
    (effects_since (snd (Worker_call self (world st)))
       (world (exec (Worker_run self) st))) = 1 /\
  count_effects is_result_emit
    (effects_since (snd (Worker_call self (world st)))
       (world (exec (Worker_run self) st))) = 0 /\
  count_effects is_finished_emit
    (effects_since (snd (Worker_call self (world st)))
       (world (exec (Worker_run self) st))) = 1.

(** ** Dialogs opened from the action buttons *)

(** The collaborators the dialog handlers import: the [FeaturematModel]
    constructor and its [make], and the constructors of [HeatmapWindow]
    and [GuideWindow].  Each may raise. *)
Class DialogCollaborators : Type := {
  Featuremat : Type;
  FeaturematModel_init : DataModel -> outcome Featuremat;
  FeaturematModel_make : Featuremat -> outcome Featuremat;
  HeatmapWindow_init : Featuremat -> outcome unit;
  GuideWindow_init : DataModel -> outcome unit
}.

(** A dialog that has been shown, with the model it was opened on.  A
    [HeatmapWindow] has its closing signal connected to
    [on_feature_view_closing]; a [GuideWindow] has its
    selected-tracks-change signal connected to
    [on_selected_tracks_change]. *)
Inductive dialog : Type :=
| HeatmapWindow (model : pyval)
| GuideWindow (model : pyval).

(** The system together with the dialogs on screen, oldest first. *)
Record Desk : Type := mkDesk {
  desk : System;
  shown : list dialog
}.

Definition in_desk {A} (m : Py System A) : Py Desk A :=
  fun dk =>
    let '(o, st) := m (desk dk) in
    (o, mkDesk st (shown dk)).

Definition on_window {A} (m : Py World A) : Py Desk A :=
  in_desk (in_world m).

(** A call into a collaborator: it returns or raises, and leaves the
    window alone. *)
Definition call {S A} (o : outcome A) : Py S A := fun s => (o, s).

(** [dialog.show()] *)
Definition show (d : dialog) : Py Desk unit :=
  modify (fun dk => mkDesk (desk dk) (shown dk ++ [d])).

Section Dialogs.
Context `{Collab : Collaborators} `{DCollab : DialogCollaborators}.

(** [ActionButtons.on_configure_tracks_action_action] *)
Definition ActionButtons_on_configure_tracks_action_action : Py Desk unit :=
  self_model ← on_window (gets action_model);
  if is_None self_model then mret tt
  else
    '(_, m) ← on_window (deref self_model);
    if is_None (guide_df m) then mret tt
    else
      call (GuideWindow_init m) ;;
      show (GuideWindow self_model).

(** [ActionButtons.on_feature_view_action] *)
Definition ActionButtons_on_feature_view_action : Py Desk unit :=
  self_model ← on_window (gets action_model);
  if is_None self_model then mret tt
  else
    '(_, m) ← on_window (deref self_model);
    if is_None (features_df m) then mret tt
    else
      on_window (setEnabled feature_view_action false) ;;
      features_model ← call (FeaturematModel_init m);
      features_model ← call (FeaturematModel_make features_model);
      call (HeatmapWindow_init features_model) ;;
      show (HeatmapWindow self_model).

(** The three collaborator calls of [on_feature_view_action], in order:
    [FeaturematModel(model)], [make()], [HeatmapWindow(...)]. *)
Definition feature_view_opens (m : DataModel) : outcome unit :=
  match FeaturematModel_init m with
  | Returns features_model =>
      match FeaturematModel_make features_model with
      | Returns features_model => HeatmapWindow_init features_model
      | Raises e => Raises e
      end
  | Raises e => Raises e
  end.

(** [ActionButtons.on_feature_view_closing] *)
Definition ActionButtons_on_feature_view_closing : Py World unit :=
  setEnabled feature_view_action true.

(** The dialog at position [i] is closed: a [HeatmapWindow] emits its
    closing signal, which calls the connected slot; the dialog leaves the
    screen. *)
Definition dialog_closing (i : nat) : Py Desk unit :=
  dialogs ← gets shown;
  match dialogs !! i with
  | Some (HeatmapWindow _) =>
      on_window ActionButtons_on_feature_view_closing ;;
      modify (fun dk => mkDesk (desk dk) (delete i (shown dk)))
  | Some (GuideWindow _) =>
      modify (fun dk => mkDesk (desk dk) (delete i (shown dk)))
  | None => mret tt
  end.

(** The [GuideWindow] at position [i] reports a selection, which calls
    the connected slot. *)
Definition dialog_selected_tracks_change (i : nat) (sel : list string)
  : Py Desk unit :=
  dialogs ← gets shown;
  match dialogs !! i with
  | Some (GuideWindow _) =>
      on_window (ActionButtons_on_selected_tracks_change sel)
  | _ => mret tt
  end.

(** What a user can do to the window. *)
Inductive ui_op : Type :=
| ClickOpenDirectory (s dialog : pyval)
| ClickOpenArchive (s : pyval) (dialog : pyval * pyval)
| ClickFeatureView
| ClickConfigureTracks
| CloseDialog (i : nat)
| SelectTracks (i : nat) (sel : list string).

(** One operation: the handler runs on the UI thread; after a click on an
    open action the threads run to completion. *)
Definition run_op (op : ui_op) : Py Desk unit :=
  match op with
  | ClickOpenDirectory s d =>
      in_desk (OpenButtons_on_open_directory_click s d) ;;
      in_desk (modify run_threads)
  | ClickOpenArchive s d =>
      in_desk (OpenButtons_on_open_archive_click s d) ;;
      in_desk (modify run_threads)
  | ClickFeatureView => ActionButtons_on_feature_view_action
  | ClickConfigureTracks => ActionButtons_on_configure_tracks_action_action
  | CloseDialog i => dialog_closing i
  | SelectTracks i sel => dialog_selected_tracks_change i sel
  end.

(** A session: each operation starts from the state the previous one left,
    also when that one raised. *)
Fixpoint run_ops (ops : list ui_op) (dk : Desk) : Desk :=
  match ops with
  | [] => dk
  | op :: rest => run_ops rest (exec (run_op op) dk)
  end.

End Dialogs.

(** The central widget and [ActionButtons] hold the same thing, which is
    [None] or a reference to a model object that exists. *)
Definition model_ok (w : World) : Prop :=
  main_model w = action_model w /\
  (action_model w = PyNone \/
   exists r : ref, action_model w = PyModel r /\ r < length (heap w)).

(** Nothing is running, the model is in order, and a [GuideWindow] is on
    screen only if a model is set. *)
Definition desk_ok (dk : Desk) : Prop :=
  quiescent (desk dk) /\
  model_ok (world (desk dk)) /\
  (forall v : pyval,
     GuideWindow v ∈ shown dk ->
     action_model (world (desk dk)) <> PyNone).

(** The world after [on_selected_tracks_change] wrote a new selection to
    the model object at [r]. *)
Definition world_selected `{Collab : Collaborators} (sel : list string)
    (r : ref) (m : DataModel) (w : World) : World :=
  mkWorld (open_dir_enabled w) (open_archive_enabled w)
    (feature_view_enabled w) (configure_tracks_enabled w)
    (main_model w) (action_model w)
    (<[r := DataModel_update_selected_tracks
              (mkDataModel sel (guide_df m) (features_df m))]> (heap w))
    (trace w ++ [Print [PyStr "on_selected_tracks_change:";
                        PyList (PyStr <$> sel); PyTuple []; PyDict []];
                 UpdateSelectedTracks r; MainUpdate; SuperUpdate]).

(** The world after the UI thread has handled the finished event of a
    load whose exception nothing caught. *)
Definition world_abandoned `{Collab : Collaborators} (filename : pyval)
    (w : World) : World :=
  log_effect SuperUpdate (log_effect MainUpdate (world_escaped filename w)).

(** The world a click on an open action leaves once the threads are done,
    by what the construction did. *)
Definition world_after_load `{Collab : Collaborators} (filename : pyval)
    (w : World) : World :=
  match construct filename with
  | Returns m' => world_loaded filename m' w
  | Raises e =>
      if isinstance_Exception e then world_failed filename w
      else world_abandoned filename w
  end.

(** From [w] to [w'] the heap has not shrunk, and the two model references
    are either the ones of [w] or both the same reference into the heap of
    [w']. *)
Definition advances (w w' : World) : Prop :=
  length (heap w) <= length (heap w') /\
  ((main_model w' = main_model w /\ action_model w' = action_model w) \/
   (exists r : ref,
      main_model w' = PyModel r /\ action_model w' = PyModel r /\
      r < length (heap w'))).

(** Dialog collaborators that always succeed, and ones whose
    [FeaturematModel.make] fails. *)
Definition sample_dialogs : DialogCollaborators := {|
  Featuremat := DataModel;
  FeaturematModel_init := fun m => Returns m;
  FeaturematModel_make := fun fm => Returns fm;
  HeatmapWindow_init := fun _ => Returns tt;
  GuideWindow_init := fun _ => Returns tt
|}.

Definition failing_dialogs : DialogCollaborators := {|
  Featuremat := DataModel;
  FeaturematModel_init := fun m => Returns m;
  FeaturematModel_make := fun _ => Raises ValueError;
  HeatmapWindow_init := fun _ => Returns tt;
  GuideWindow_init := fun _ => Returns tt
|}.

Definition desk0 : Desk := mkDesk system0 [].

Definition desk1 : Desk := mkDesk system1 [].

(** A window that shows a model and has a [GuideWindow] open on it. *)
Definition desk2 : Desk := mkDesk system1 [GuideWindow (PyModel 0)].

(** ** CanvasWindow, the Tk canvas window of [cnviewer]

    [cnviewer/tkutils/canvas_ui.py].  What the window does to the toolkit
    and what the callbacks do are recorded in a log. *)

Inductive tk_effect : Type :=
| CanvasDraw
| RootQuit
| RootDestroy
| Called (name : string) (controller : pyval).

(** A callback registered on the window: called with the controller, it
    acts on the log and may raise.  (A callback that registers further
    callbacks while it runs is outside this type.) *)
Definition callback : Type := pyval -> Py (list tk_effect) unit.

Record CanvasWindow : Type := mkCanvasWindow {
  on_controller_callbacks : list callback;
  tk_log : list tk_effect
}.

Definition in_tk {A} (m : Py (list tk_effect) A) : Py CanvasWindow A :=
  fun self =>
    let '(o, l) := m (tk_log self) in
    (o, mkCanvasWindow (on_controller_callbacks self) l).

Definition tk_do (e : tk_effect) : Py (list tk_effect) unit :=
  modify (fun l => l ++ [e]).

(** [CanvasWindow.register_on_controller_callback] *)
Definition CanvasWindow_register_on_controller_callback (cb : callback)
  : Py CanvasWindow unit :=
  modify (fun self =>
    mkCanvasWindow (on_controller_callbacks self ++ [cb]) (tk_log self)).

(** [for cb in self.on_controller_callbacks: cb(controller)] *)
Fixpoint for_each_callback (cbs : list callback) (controller : pyval)
  : Py (list tk_effect) unit :=
  match cbs with
  | [] => mret tt
  | cb :: rest => cb controller ;; for_each_callback rest controller
  end.

(** [CanvasWindow.connect_controller] *)
Definition CanvasWindow_connect_controller (controller : pyval)
  : Py CanvasWindow unit :=
  cbs ← gets on_controller_callbacks;
  in_tk (for_each_callback cbs controller) ;;
  in_tk (tk_do CanvasDraw).

(** [CanvasWindow.refresh] *)
Definition CanvasWindow_refresh : Py CanvasWindow unit :=
  in_tk (tk_do CanvasDraw).

(** [CanvasWindow._quit] *)
Definition CanvasWindow__quit : Py CanvasWindow unit :=
  in_tk (tk_do RootQuit) ;;
  in_tk (tk_do RootDestroy).

(** Registering several callbacks, one call after the other. *)
Fixpoint register_all (cbs : list callback) : Py CanvasWindow unit :=
  match cbs with
  | [] => mret tt
  | cb :: rest =>
      CanvasWindow_register_on_controller_callback cb ;; register_all rest
  end.

(** A callback that raises. *)
Definition failing_callback : callback := fun _ => raise ValueError.

(** A callback that records that it was called, and with what. *)
Definition probe (name : string) : callback :=
  fun controller => tk_do (Called name controller).

(** * Properties *)

Lemma effects_since_app (w w' : World) (added : list effect) :
  trace w' = trace w ++ added -> effects_since w w' = added.
Proof.
  intros H. unfold effects_since. rewrite H. apply drop_app_length.
Qed.

Lemma effects_since_log (w : World) (e : effect) :
  effects_since w (log_effect e w) = [e].
Proof. now apply effects_since_app. Qed.

(** Unfolds the monad's plumbing and evaluates. *)
Ltac py_simpl :=
  cbv [mbind Py_bind mret Py_ret modify gets raise in_world emit print
       print_exc setEnabled];
  cbn.

(** Runs the slots and window methods as well. *)
Ltac py_run :=
  repeat progress
    (cbv [process_events deliver_all deliver call_slots
          MainWindow_set_model BaseHeatmapWidget_set_model
          ActionButtons_set_model OpenButtons__load_complete
          OpenButtons__load_error MainWindow_update exec is_None];
     py_simpl).

Section Lemmas.
Context `{Collab : Collaborators}.

(** *** Worker.run, case by case *)

Lemma Worker_run_returns (self : Worker) (st : System) (v : pyval)
    (w1 : World) :
  Worker_call self (world st) = (Returns v, w1) ->
  Worker_run self st =
    (Returns tt,
     mkSystem (log_effect (Emit Finished) (log_effect (Emit (Result v)) w1))
              (threadpool st)
              (events st ++ [(signals self, Result v);
                             (signals self, Finished)])).
Proof.
  intros Hcall.
  unfold Worker_run, try_except_else_finally, in_world.
  rewrite Hcall. py_simpl. now rewrite <- app_assoc.
Qed.

Lemma Worker_run_raises_Exception (self : Worker) (st : System) (e : exc)
    (w1 : World) :
  Worker_call self (world st) = (Raises e, w1) ->
  isinstance_Exception e = true ->
  Worker_run self st =
    (Returns tt,
     mkSystem
       (log_effect (Emit Finished)
          (log_effect (Emit (Error (exc_type e, e, format_exc e)))
             (log_effect (PrintExc e) w1)))
       (threadpool st)
       (events st ++ [(signals self, Error (exc_type e, e, format_exc e));
                      (signals self, Finished)])).
Proof.
  intros Hcall Hexc.
  unfold Worker_run, try_except_else_finally, in_world.
  rewrite Hcall, Hexc. py_simpl. now rewrite <- app_assoc.
Qed.

(** An exception that does not derive from [Exception] passes through
    [run]: only the [finally] suite acts. *)
Lemma Worker_run_raises_other (self : Worker) (st : System) (e : exc)
    (w1 : World) :
  Worker_call self (world st) = (Raises e, w1) ->
  isinstance_Exception e = false ->
  Worker_run self st =
    (Raises e,
     mkSystem (log_effect (Emit Finished) w1) (threadpool st)
              (events st ++ [(signals self, Finished)])).
Proof.
  intros Hcall Hexc.
  unfold Worker_run, try_except_else_finally, in_world.
  now rewrite Hcall, Hexc.
Qed.

(** *** Heap cells *)

Lemma heap_alloc_lookup (h : list DataModel) (m : DataModel) :
  (h ++ [m]) !! length h = Some m.
Proof. now apply list_lookup_middle. Qed.

Lemma heap_alloc_update (h : list DataModel) (m m' : DataModel) :
  <[length h := m']> (h ++ [m]) = h ++ [m'].
Proof.
  rewrite insert_app_r_alt by reflexivity.
  now rewrite Nat.sub_diag.
Qed.

Lemma heap_extension_keeps (h extra : list DataModel) (r : ref)
    (m : DataModel) :
  h !! r = Some m -> (h ++ extra) !! r = Some m.
Proof. apply lookup_app_l_Some. Qed.

Lemma heap_fresh (h : list DataModel) : h !! length h = None.
Proof. now apply lookup_ge_None. Qed.

(** *** _build_model, case by case *)

Lemma build_model_returns (filename : pyval) (rest : list pyval)
    (kw : list (string * pyval)) (w : World) (m' : DataModel) :
  construct filename = Returns m' ->
  OpenButtons__build_model (filename :: rest) kw w =
    (Returns (PyModel (length (heap w))), with_heap (heap w ++ [m']) w).
Proof.
  unfold construct.
  destruct (DataModel_init filename) as [m|e] eqn:Hinit; [|discriminate].
  intros Hmake.
  unfold OpenButtons__build_model, try_except, DataModel_new,
    DataModel_make_call, deref.
  py_simpl. rewrite Hinit. cbn.
  rewrite heap_alloc_lookup, Hmake. cbn.
  now rewrite heap_alloc_update.
Qed.

Lemma build_model_catches (filename : pyval) (rest : list pyval)
    (kw : list (string * pyval)) (w : World) (e : exc) :
  construct filename = Raises e ->
  isinstance_Exception e = true ->
  OpenButtons__build_model (filename :: rest) kw w =
    (Returns PyNone,
     exec OpenButtons__load_error
          (with_heap (heap w ++ leftover filename) w)).
Proof.
  unfold construct, leftover.
  destruct (DataModel_init filename) as [m|e0] eqn:Hinit.
  - intros Hmake Hexc. rewrite Hmake.
    unfold OpenButtons__build_model, try_except, DataModel_new,
      DataModel_make_call, deref, OpenButtons__load_error, exec.
    py_simpl. rewrite Hinit. cbn.
    rewrite heap_alloc_lookup, Hmake. cbn.
    now rewrite Hexc.
  - intros [= ->] Hexc.
    unfold OpenButtons__build_model, try_except, DataModel_new,
      OpenButtons__load_error, exec.
    py_simpl. rewrite Hinit, Hexc. cbn.
    rewrite app_nil_r.
    now destruct w.
Qed.

Lemma build_model_lets_through (filename : pyval) (rest : list pyval)
    (kw : list (string * pyval)) (w : World) (e : exc) :
  construct filename = Raises e ->
  isinstance_Exception e = false ->
  OpenButtons__build_model (filename :: rest) kw w =
    (Raises e, with_heap (heap w ++ leftover filename) w).
Proof.
  unfold construct, leftover.
  destruct (DataModel_init filename) as [m|e0] eqn:Hinit.
  - intros Hmake Hexc. rewrite Hmake.
    unfold OpenButtons__build_model, try_except, DataModel_new,
      DataModel_make_call, deref.
    py_simpl. rewrite Hinit. cbn.
    rewrite heap_alloc_lookup, Hmake. cbn.
    now rewrite Hexc.
  - intros [= ->] Hexc.
    unfold OpenButtons__build_model, try_except, DataModel_new.
    py_simpl. rewrite Hinit, Hexc.
    rewrite app_nil_r.
    now destruct w.
Qed.

(** *** A whole load *)

Lemma load_model_starts (filename : pyval) (st : System) :
  OpenButtons_load_model filename st =
    (Returns tt,
     mkSystem (world_started filename (world st))
              (threadpool st ++ [load_worker filename]) (events st)).
Proof.
  unfold OpenButtons_load_model, QThreadPool_start, world_started.
  py_simpl. unfold log_effect. cbn.
  now rewrite <- !app_assoc.
Qed.

Lemma load_worker_call (filename : pyval) (w : World) :
  Worker_call (load_worker filename) w =
    OpenButtons__build_model [filename] signal_kwargs w.
Proof. reflexivity. Qed.

Lemma load_success (filename : pyval) (st : System) (m' : DataModel) :
  quiescent st ->
  construct filename = Returns m' ->
  load filename st =
    (Returns tt, mkSystem (world_loaded filename m' (world st)) [] []).
Proof.
  destruct st as [w pool evs]. intros [Hpool Hevs] Hcons.
  cbn in Hpool, Hevs. subst pool evs.
  unfold load. py_simpl. rewrite load_model_starts. cbn.
  unfold pool_step. cbn.
  pose proof (build_model_returns filename [] signal_kwargs
                (world_started filename w) m' Hcons) as Hcall.
  rewrite <- load_worker_call in Hcall.
  rewrite (Worker_run_returns _
             (mkSystem (world_started filename w) [] []) _ _ Hcall).
  py_run. unfold world_loaded, log_effect. cbn.
  now rewrite <- !app_assoc.
Qed.

Lemma load_failure (filename : pyval) (st : System) (e : exc) :
  quiescent st ->
  construct filename = Raises e ->
  isinstance_Exception e = true ->
  load filename st =
    (Returns tt, mkSystem (world_failed filename (world st)) [] []).
Proof.
  destruct st as [w pool evs]. intros [Hpool Hevs] Hcons Hexc.
  cbn in Hpool, Hevs. subst pool evs.
  unfold load. py_simpl. rewrite load_model_starts. cbn.
  unfold pool_step. cbn.
  pose proof (build_model_catches filename [] signal_kwargs
                (world_started filename w) e Hcons Hexc) as Hcall.
  rewrite <- load_worker_call in Hcall.
  rewrite (Worker_run_returns _
             (mkSystem (world_started filename w) [] []) _ _ Hcall).
  py_run. unfold world_failed, log_effect. cbn.
  now rewrite <- !app_assoc.
Qed.

End Lemmas.

(** ** Worker.run *)

(** C4. When the wrapped callable returns [v] without raising, [Worker.run]
    returns normally and emits exactly a result event carrying [v] followed
    by a finished event: one result, one finished, no error event, each
    queued on the worker's own signals. *)
Theorem Worker_run_result_then_finished `{Collab : Collaborators}
    (self : Worker) (st : System) (v : pyval) (w1 : World) :
  Worker_call self (world st) = (Returns v, w1) ->
  fst (Worker_run self st) = Returns tt /\
  effects_since w1 (world (exec (Worker_run self) st)) =
    [Emit (Result v); Emit Finished] /\
  events (exec (Worker_run self) st) =
    events st ++ [(signals self, Result v); (signals self, Finished)] /\
  count_effects is_result_emit
    (effects_since w1 (world (exec (Worker_run self) st))) = 1 /\
  count_effects is_finished_emit
    (effects_since w1 (world (exec (Worker_run self) st))) = 1 /\
  count_effects is_error_emit
    (effects_since w1 (world (exec (Worker_run self) st))) = 0.
Proof.
  intros Hcall. unfold exec.
  rewrite (Worker_run_returns self st v w1 Hcall). cbn [fst snd world events].
  assert (Hadded :
    effects_since w1
      (log_effect (Emit Finished) (log_effect (Emit (Result v)) w1)) =
    [Emit (Result v); Emit Finished]).
  { apply effects_since_app. cbn. now rewrite <- app_assoc. }
  rewrite Hadded. repeat split.
Qed.

Lemma Worker_run_result_then_finished_witness :
  @Worker_call echo_worker world0 = (Returns (PyInt 7), world0) /\
  fst (@Worker_run sample_collab echo_worker system0) = Returns tt /\
  effects_since world0
    (world (exec (@Worker_run sample_collab echo_worker) system0)) =
    [Emit (Result (PyInt 7)); Emit Finished] /\
  events (exec (@Worker_run sample_collab echo_worker) system0) =
    events system0 ++ [(signals echo_worker, Result (PyInt 7));
                       (signals echo_worker, Finished)] /\
  count_effects is_result_emit
    (effects_since world0
       (world (exec (@Worker_run sample_collab echo_worker) system0))) = 1 /\
  count_effects is_finished_emit
    (effects_since world0
       (world (exec (@Worker_run sample_collab echo_worker) system0))) = 1 /\
  count_effects is_error_emit
    (effects_since world0
       (world (exec (@Worker_run sample_collab echo_worker) system0))) = 0.
Proof.
  split; [reflexivity|].
  apply (@Worker_run_result_then_finished sample_collab echo_worker system0
           (PyInt 7) world0).
  reflexivity.
Defined.

(** C5, as written, fails: a callable that calls [sys.exit] raises
    [SystemExit], which [except Exception] does not match; [run] emits
    finished only, no error event, and raises the exception again. *)
Lemma error_then_finished_fails :
  Worker_call exiting_worker (world system0) =
    (Raises SystemExit_0, world system0) /\
  fst (@Worker_run sample_collab exiting_worker system0) =
    Raises SystemExit_0 /\
  effects_since (world system0)
    (world (exec (@Worker_run sample_collab exiting_worker) system0)) =
    [Emit Finished] /\
  ~ @error_then_finished sample_collab exiting_worker system0 SystemExit_0.
Proof.
  split; [reflexivity|]. split; [reflexivity|]. split; [reflexivity|].
  intros (_ & Herr & _). vm_compute in Herr. discriminate Herr.
Qed.

(** C5, amended. When the wrapped callable raises an exception [e] that
    is an instance of [Exception] (what [except Exception] matches),
    [Worker.run] prints the traceback and emits exactly an error event
    carrying the triple (type of [e], [e], formatted traceback) followed
    by a finished event: one error, one finished after it, no result
    event. *)
Theorem Worker_run_error_then_finished `{Collab : Collaborators}
    (self : Worker) (st : System) (e : exc) (w1 : World) :
  Worker_call self (world st) = (Raises e, w1) ->
  isinstance_Exception e = true ->
  fst (Worker_run self st) = Returns tt /\
  effects_since w1 (world (exec (Worker_run self) st)) =
    [PrintExc e; Emit (Error (exc_type e, e, format_exc e)); Emit Finished] /\
  events (exec (Worker_run self) st) =
    events st ++ [(signals self, Error (exc_type e, e, format_exc e));
                  (signals self, Finished)] /\
  count_effects is_error_emit
    (effects_since w1 (world (exec (Worker_run self) st))) = 1 /\
  count_effects is_finished_emit
    (effects_since w1 (world (exec (Worker_run self) st))) = 1 /\
  count_effects is_result_emit
    (effects_since w1 (world (exec (Worker_run self) st))) = 0.
Proof.
  intros Hcall Hexc. unfold exec.
  rewrite (Worker_run_raises_Exception self st e w1 Hcall Hexc).
  cbn [fst snd world events].
  assert (Hadded :
    effects_since w1
      (log_effect (Emit Finished)
         (log_effect (Emit (Error (exc_type e, e, format_exc e)))
            (log_effect (PrintExc e) w1))) =
    [PrintExc e; Emit (Error (exc_type e, e, format_exc e)); Emit Finished]).
  { apply effects_since_app. cbn. now rewrite <- !app_assoc. }
  rewrite Hadded. repeat split.
Qed.

Lemma Worker_run_error_then_finished_witness :
  @Worker_call raising_worker world0 = (Raises ValueError, world0) /\
  isinstance_Exception ValueError = true /\
  fst (@Worker_run sample_collab raising_worker system0) = Returns tt /\
  effects_since world0
    (world (exec (@Worker_run sample_collab raising_worker) system0)) =
    [PrintExc ValueError;
     Emit (Error (ExceptionClass "ValueError", ValueError, "not a dataset"));
     Emit Finished] /\
  events (exec (@Worker_run sample_collab raising_worker) system0) =
    [(signals raising_worker,
      Error (ExceptionClass "ValueError", ValueError, "not a dataset"));
     (signals raising_worker, Finished)] /\
  count_effects is_error_emit
    (effects_since world0
       (world (exec (@Worker_run sample_collab raising_worker) system0)))
    = 1 /\
  count_effects is_finished_emit
    (effects_since world0
       (world (exec (@Worker_run sample_collab raising_worker) system0)))
    = 1 /\
  count_effects is_result_emit
    (effects_since world0
       (world (exec (@Worker_run sample_collab raising_worker) system0)))
    = 0.
Proof.
  split; [reflexivity|]. split; [reflexivity|].
  apply (@Worker_run_error_then_finished sample_collab raising_worker system0
           ValueError world0); reflexivity.
Defined.

(** ** Loads *)

(** C1, as written, fails: on the successful load of [data] into a fresh
    window, no open action is enabled again. *)
Lemma reenabled_exactly_once_fails :
  @construct sample_collab (PyStr "data") = Returns sample_made /\
  count_effects (is_set_enabled open_dir_action true)
    (effects_since (world system0)
       (world (exec (@load sample_collab (PyStr "data")) system0))) = 0 /\
  count_effects (is_set_enabled open_archive_action true)
    (effects_since (world system0)
       (world (exec (@load sample_collab (PyStr "data")) system0))) = 0 /\
  open_dir_enabled
    (world (exec (@load sample_collab (PyStr "data")) system0)) = false /\
  open_archive_enabled
    (world (exec (@load sample_collab (PyStr "data")) system0)) = false /\
  ~ @reenabled_exactly_once sample_collab (PyStr "data") system0.
Proof.
  split; [reflexivity|]. split; [reflexivity|]. split; [reflexivity|].
  split; [reflexivity|]. split; [reflexivity|].
  intros (_ & _ & Hdir & _). vm_compute in Hdir. discriminate Hdir.
Qed.

(** C1, amended. Every load disables both open actions when it starts.
    On a successful load nothing enables them again: [_load_complete] only
    updates the window, so each action is disabled once, enabled zero
    times, and both are still disabled when the load is complete. *)
Theorem successful_load_leaves_open_actions_disabled
    `{Collab : Collaborators} (filename : pyval) (st : System)
    (m' : DataModel) :
  (open_dir_enabled (world (exec (OpenButtons_load_model filename) st))
     = false /\
   open_archive_enabled (world (exec (OpenButtons_load_model filename) st))
     = false) /\
  (quiescent st ->
   construct filename = Returns m' ->
   effects_since (world st) (world (exec (load filename) st)) =
     [SetEnabled open_archive_action false;
      SetEnabled open_dir_action false;
      ThreadpoolStart [filename];
      Emit (Result (PyModel (length (heap (world st)))));
      Emit Finished;
      MainUpdate; SuperUpdate] /\
   count_effects (is_set_enabled open_dir_action true)
     (effects_since (world st) (world (exec (load filename) st))) = 0 /\
   count_effects (is_set_enabled open_archive_action true)
     (effects_since (world st) (world (exec (load filename) st))) = 0 /\
   open_dir_enabled (world (exec (load filename) st)) = false /\
   open_archive_enabled (world (exec (load filename) st)) = false).
Proof.
  split.
  - unfold exec. rewrite load_model_starts. split; reflexivity.
  - intros Hq Hcons. unfold exec.
    rewrite (load_success filename st m' Hq Hcons). cbn [snd world].
    erewrite effects_since_app by reflexivity.
    repeat split.
Qed.

Lemma successful_load_leaves_open_actions_disabled_witness :
  quiescent system0 /\
  @construct sample_collab (PyStr "data") = Returns sample_made /\
  open_dir_enabled
    (world (exec (@OpenButtons_load_model sample_collab (PyStr "data"))
                 system0)) = false /\
  open_archive_enabled
    (world (exec (@OpenButtons_load_model sample_collab (PyStr "data"))
                 system0)) = false /\
  effects_since (world system0)
    (world (exec (@load sample_collab (PyStr "data")) system0)) =
    [SetEnabled open_archive_action false;
     SetEnabled open_dir_action false;
     ThreadpoolStart [PyStr "data"];
     Emit (Result (PyModel 0));
     Emit Finished;
     MainUpdate; SuperUpdate] /\
  count_effects (is_set_enabled open_dir_action true)
    (effects_since (world system0)
       (world (exec (@load sample_collab (PyStr "data")) system0))) = 0 /\
  count_effects (is_set_enabled open_archive_action true)
    (effects_since (world system0)
       (world (exec (@load sample_collab (PyStr "data")) system0))) = 0 /\
  open_dir_enabled
    (world (exec (@load sample_collab (PyStr "data")) system0)) = false /\
  open_archive_enabled
    (world (exec (@load sample_collab (PyStr "data")) system0)) = false.
Proof.
  split; [split; reflexivity|]. split; [reflexivity|].
  destruct (@successful_load_leaves_open_actions_disabled sample_collab
              (PyStr "data") system0 sample_made)
    as [[Hdir Harchive] Hdone].
  split; [exact Hdir|]. split; [exact Harchive|].
  apply Hdone.
  - split; reflexivity.
  - reflexivity.
Defined.

(** C2, as written, fails: loading the path [missing], whose constructor
    raises [ValueError], emits no error event. *)
Lemma one_error_one_finished_fails :
  @construct sample_collab (PyStr "missing") = Raises ValueError /\
  isinstance_Exception ValueError = true /\
  count_effects is_error_emit
    (effects_since (world system0)
       (world (exec (@load sample_collab (PyStr "missing")) system0))) = 0 /\
  ~ @one_error_one_finished sample_collab (PyStr "missing") system0.
Proof.
  split; [reflexivity|]. split; [reflexivity|]. split; [reflexivity|].
  intros (Herr & _). vm_compute in Herr. discriminate Herr.
Qed.

(** C2, amended. When model construction raises an exception (an instance
    of [Exception]), [_build_model] catches it and returns [None], so the
    load emits no error event: it emits exactly one result event, carrying
    [None], and exactly one finished event, and both open actions are
    enabled afterwards. *)
Theorem failing_load_emits_none_result_and_finished
    `{Collab : Collaborators} (filename : pyval) (st : System) (e : exc) :
  quiescent st ->
  construct filename = Raises e ->
  isinstance_Exception e = true ->
  count_effects is_error_emit
    (effects_since (world st) (world (exec (load filename) st))) = 0 /\
  List.filter is_result_emit
    (effects_since (world st) (world (exec (load filename) st))) =
    [Emit (Result PyNone)] /\
  count_effects is_finished_emit
    (effects_since (world st) (world (exec (load filename) st))) = 1 /\
  open_dir_enabled (world (exec (load filename) st)) = true /\
  open_archive_enabled (world (exec (load filename) st)) = true.
Proof.
  intros Hq Hcons Hexc. unfold exec.
  rewrite (load_failure filename st e Hq Hcons Hexc). cbn [snd world].
  rewrite (effects_since_app (world st) (world_failed filename (world st)) _
             eq_refl).
  repeat split.
Qed.

Lemma failing_load_emits_none_result_and_finished_witness :
  quiescent system0 /\
  @construct sample_collab (PyStr "missing") = Raises ValueError /\
  isinstance_Exception ValueError = true /\
  count_effects is_error_emit
    (effects_since (world system0)
       (world (exec (@load sample_collab (PyStr "missing")) system0))) = 0 /\
  List.filter is_result_emit
    (effects_since (world system0)
       (world (exec (@load sample_collab (PyStr "missing")) system0))) =
    [Emit (Result PyNone)] /\
  count_effects is_finished_emit
    (effects_since (world system0)
       (world (exec (@load sample_collab (PyStr "missing")) system0))) = 1 /\
  open_dir_enabled
    (world (exec (@load sample_collab (PyStr "missing")) system0)) = true /\
  open_archive_enabled
    (world (exec (@load sample_collab (PyStr "missing")) system0)) = true.
Proof.
  split; [split; reflexivity|]. split; [reflexivity|]. split; [reflexivity|].
  apply (@failing_load_emits_none_result_and_finished sample_collab
           (PyStr "missing") system0 ValueError).
  - split; reflexivity.
  - reflexivity.
  - reflexivity.
Defined.

(** C3, as written, fails: when the constructor raises [ValueError] for
    the path [missing], the call made by [Worker.run] does not raise, no
    traceback is printed and no error event is emitted. *)
Lemma caught_at_worker_boundary_fails :
  @construct sample_collab (PyStr "missing") = Raises ValueError /\
  isinstance_Exception ValueError = true /\
  fst (Worker_call (@load_worker sample_collab (PyStr "missing"))
         (world system0)) = Returns PyNone /\
  count_effects is_print_exc
    (effects_since (world system0)
       (world (exec (@Worker_run sample_collab
                       (@load_worker sample_collab (PyStr "missing")))
                    system0))) = 0 /\
  count_effects is_error_emit
    (effects_since (world system0)
       (world (exec (@Worker_run sample_collab
                       (@load_worker sample_collab (PyStr "missing")))
                    system0))) = 0 /\
  ~ @caught_at_worker_boundary sample_collab
      (@load_worker sample_collab (PyStr "missing")) system0 ValueError.
Proof.
  split; [reflexivity|]. split; [reflexivity|].
  split; [reflexivity|]. split; [reflexivity|]. split; [reflexivity|].
  intros (_ & Hprint & _). vm_compute in Hprint. discriminate Hprint.
Qed.

(** C3, amended. Every exception (instance of [Exception]) raised during
    model construction is caught inside [_build_model], before it reaches
    [Worker.run]: the call returns [None], no traceback is printed and no
    error event is emitted; [run] emits a result event carrying [None] and
    a finished event.  The only recovery action is enabling the two open
    actions: apart from them (and the object a failed [make] leaves
    unreachable in the heap) the world is as it was. *)
Theorem construction_exception_caught_in_build_model
    `{Collab : Collaborators} (self : Worker) (st : System)
    (filename : pyval) (rest : list pyval) (e : exc) :
  fn self = OpenButtons__build_model ->
  args self = filename :: rest ->
  construct filename = Raises e ->
  isinstance_Exception e = true ->
  fst (Worker_call self (world st)) = Returns PyNone /\
  fst (Worker_run self st) = Returns tt /\
  world (exec (Worker_run self) st) =
    mkWorld true true
      (feature_view_enabled (world st)) (configure_tracks_enabled (world st))
      (main_model (world st)) (action_model (world st))
      (heap (world st) ++ leftover filename)
      (trace (world st) ++
         [SetEnabled open_archive_action true;
          SetEnabled open_dir_action true;
          Emit (Result PyNone);
          Emit Finished]) /\
  count_effects is_print_exc
    (effects_since (world st) (world (exec (Worker_run self) st))) = 0 /\
  count_effects is_error_emit
    (effects_since (world st) (world (exec (Worker_run self) st))) = 0.
Proof.
  intros Hfn Hargs Hcons Hexc.
  assert (Hcall :
    Worker_call self (world st) =
    (Returns PyNone,
     exec OpenButtons__load_error
       (with_heap (heap (world st) ++ leftover filename) (world st)))).
  { unfold Worker_call. rewrite Hfn, Hargs.
    now apply (build_model_catches filename rest _ (world st) e). }
  assert (Hworld :
    world (exec (Worker_run self) st) =
    mkWorld true true
      (feature_view_enabled (world st)) (configure_tracks_enabled (world st))
      (main_model (world st)) (action_model (world st))
      (heap (world st) ++ leftover filename)
      (trace (world st) ++
         [SetEnabled open_archive_action true;
          SetEnabled open_dir_action true;
          Emit (Result PyNone);
          Emit Finished])).
  { unfold exec at 1. rewrite (Worker_run_returns self st _ _ Hcall).
    py_run. unfold log_effect. cbn. now rewrite <- !app_assoc. }
  split; [now rewrite Hcall|].
  split; [now rewrite (Worker_run_returns self st _ _ Hcall)|].
  split; [exact Hworld|].
  rewrite Hworld.
  erewrite effects_since_app by reflexivity.
  split; reflexivity.
Qed.

Lemma construction_exception_caught_in_build_model_witness :
  fn (@load_worker sample_collab (PyStr "broken.zip")) =
    @OpenButtons__build_model sample_collab /\
  args (@load_worker sample_collab (PyStr "broken.zip")) =
    [PyStr "broken.zip"] /\
  @construct sample_collab (PyStr "broken.zip") = Raises ValueError /\
  isinstance_Exception ValueError = true /\
  fst (Worker_call (@load_worker sample_collab (PyStr "broken.zip"))
         (world system1)) = Returns PyNone /\
  fst (@Worker_run sample_collab
         (@load_worker sample_collab (PyStr "broken.zip")) system1)
    = Returns tt /\
  world (exec (@Worker_run sample_collab
                 (@load_worker sample_collab (PyStr "broken.zip")))
              system1) =
    mkWorld true true
      (feature_view_enabled (world system1))
      (configure_tracks_enabled (world system1))
      (main_model (world system1)) (action_model (world system1))
      (heap (world system1) ++ @leftover sample_collab (PyStr "broken.zip"))
      (trace (world system1) ++
         [SetEnabled open_archive_action true;
          SetEnabled open_dir_action true;
          Emit (Result PyNone);
          Emit Finished]) /\
  count_effects is_print_exc
    (effects_since (world system1)
       (world (exec (@Worker_run sample_collab
                       (@load_worker sample_collab (PyStr "broken.zip")))
                    system1))) = 0 /\
  count_effects is_error_emit
    (effects_since (world system1)
       (world (exec (@Worker_run sample_collab
                       (@load_worker sample_collab (PyStr "broken.zip")))
                    system1))) = 0.
Proof.
  split; [reflexivity|]. split; [reflexivity|].
  split; [reflexivity|]. split; [reflexivity|].
  apply (@construction_exception_caught_in_build_model sample_collab
           (@load_worker sample_collab (PyStr "broken.zip")) system1
           (PyStr "broken.zip") [] ValueError); reflexivity.
Defined.

(** ** Cancelled dialogs *)

(** C6. When the file dialog returns [None] or the empty string, each
    click handler returns after printing its message: no worker is handed
    to the pool, nothing is queued, and no button, model reference or model
    object changes. *)
Theorem cancelled_dialog_is_noop `{Collab : Collaborators}
    (s dialog selected_filter : pyval) (st : System) :
  dialog = PyNone \/ dialog = PyStr EmptyString ->
  OpenButtons_on_open_directory_click s dialog st =
    (Returns tt,
     mkSystem (log_effect (Print [PyStr "open directory canceled..."])
                          (world st))
              (threadpool st) (events st)) /\
  OpenButtons_on_open_archive_click s (dialog, selected_filter) st =
    (Returns tt,
     mkSystem (log_effect (Print [PyStr "open archive canceled..."])
                          (world st))
              (threadpool st) (events st)) /\
  (forall st' : System,
     st' = exec (OpenButtons_on_open_directory_click s dialog) st \/
     st' = exec (OpenButtons_on_open_archive_click s
                   (dialog, selected_filter)) st ->
     threadpool st' = threadpool st /\
     events st' = events st /\
     same_state (world st) (world st') /\
     count_effects is_threadpool_start
       (effects_since (world st) (world st')) = 0).
Proof.
  intros Hdialog.
  assert (Hcancel : is_None dialog || eq_empty_str dialog = true)
    by (destruct Hdialog as [-> | ->]; reflexivity).
  assert (Hdir :
    OpenButtons_on_open_directory_click s dialog st =
    (Returns tt,
     mkSystem (log_effect (Print [PyStr "open directory canceled..."])
                          (world st))
              (threadpool st) (events st))).
  { unfold OpenButtons_on_open_directory_click. now rewrite Hcancel. }
  assert (Harch :
    OpenButtons_on_open_archive_click s (dialog, selected_filter) st =
    (Returns tt,
     mkSystem (log_effect (Print [PyStr "open archive canceled..."])
                          (world st))
              (threadpool st) (events st))).
  { unfold OpenButtons_on_open_archive_click. now rewrite Hcancel. }
  split; [exact Hdir|]. split; [exact Harch|].
  intros st' [-> | ->]; unfold exec.
  - rewrite Hdir. cbn [snd world threadpool events].
    rewrite effects_since_log. now repeat split.
  - rewrite Harch. cbn [snd world threadpool events].
    rewrite effects_since_log. now repeat split.
Qed.

Lemma cancelled_dialog_is_noop_witness :
  (PyStr EmptyString = PyNone \/ PyStr EmptyString = PyStr EmptyString) /\
  @OpenButtons_on_open_directory_click sample_collab PyNone
      (PyStr EmptyString) system1 =
    (Returns tt,
     mkSystem (log_effect (Print [PyStr "open directory canceled..."])
                          (world system1))
              (threadpool system1) (events system1)) /\
  @OpenButtons_on_open_archive_click sample_collab PyNone
      (PyStr EmptyString, PyStr "Zip File") system1 =
    (Returns tt,
     mkSystem (log_effect (Print [PyStr "open archive canceled..."])
                          (world system1))
              (threadpool system1) (events system1)) /\
  (forall st' : System,
     st' = exec (@OpenButtons_on_open_directory_click sample_collab PyNone
                   (PyStr EmptyString)) system1 \/
     st' = exec (@OpenButtons_on_open_archive_click sample_collab PyNone
                   (PyStr EmptyString, PyStr "Zip File")) system1 ->
     threadpool st' = threadpool system1 /\
     events st' = events system1 /\
     same_state (world system1) (world st') /\
     count_effects is_threadpool_start
       (effects_since (world system1) (world st')) = 0).
Proof.
  split; [right; reflexivity|].
  apply (@cancelled_dialog_is_noop sample_collab PyNone (PyStr EmptyString)
           (PyStr "Zip File") system1).
  right; reflexivity.
Defined.

(** ** The model reference *)

Lemma set_model_None `{Collab : Collaborators} (w : World) :
  MainWindow_set_model PyNone w = (Returns tt, w).
Proof. reflexivity. Qed.

(** C7. On a successful load the central widget and [ActionButtons] both
    come to hold a reference to the newly constructed model object, which
    is a fresh heap cell: the reference is replaced, no existing model
    object is written, and the action buttons that do not open files keep
    their state. *)
Theorem successful_load_replaces_model_reference `{Collab : Collaborators}
    (filename : pyval) (st : System) (m' : DataModel) :
  quiescent st ->
  construct filename = Returns m' ->
  main_model (world (exec (load filename) st)) =
    PyModel (length (heap (world st))) /\
  action_model (world (exec (load filename) st)) =
    PyModel (length (heap (world st))) /\
  heap (world st) !! length (heap (world st)) = None /\
  heap (world (exec (load filename) st)) !! length (heap (world st)) =
    Some m' /\
  heap (world (exec (load filename) st)) = heap (world st) ++ [m'] /\
  (forall (r : ref) (m : DataModel),
     heap (world st) !! r = Some m ->
     heap (world (exec (load filename) st)) !! r = Some m) /\
  feature_view_enabled (world (exec (load filename) st)) =
    feature_view_enabled (world st) /\
  configure_tracks_enabled (world (exec (load filename) st)) =
    configure_tracks_enabled (world st) /\
  threadpool (exec (load filename) st) = [] /\
  events (exec (load filename) st) = [].
Proof.
  intros Hq Hcons. unfold exec.
  rewrite (load_success filename st m' Hq Hcons).
  cbn [snd world threadpool events world_loaded main_model action_model heap
       feature_view_enabled configure_tracks_enabled].
  repeat split.
  - apply heap_fresh.
  - apply heap_alloc_lookup.
  - intros r m. apply heap_extension_keeps.
Qed.

Lemma successful_load_replaces_model_reference_witness :
  quiescent system1 /\
  @construct sample_collab (PyStr "data") = Returns sample_made /\
  main_model (world (exec (@load sample_collab (PyStr "data")) system1)) =
    PyModel (length (heap (world system1))) /\
  action_model (world (exec (@load sample_collab (PyStr "data")) system1)) =
    PyModel (length (heap (world system1))) /\
  heap (world system1) !! length (heap (world system1)) = None /\
  heap (world (exec (@load sample_collab (PyStr "data")) system1))
    !! length (heap (world system1)) = Some sample_made /\
  heap (world (exec (@load sample_collab (PyStr "data")) system1)) =
    heap (world system1) ++ [sample_made] /\
  (forall (r : ref) (m : DataModel),
     heap (world system1) !! r = Some m ->
     heap (world (exec (@load sample_collab (PyStr "data")) system1)) !! r
       = Some m) /\
  feature_view_enabled
    (world (exec (@load sample_collab (PyStr "data")) system1)) =
    feature_view_enabled (world system1) /\
  configure_tracks_enabled
    (world (exec (@load sample_collab (PyStr "data")) system1)) =
    configure_tracks_enabled (world system1) /\
  threadpool (exec (@load sample_collab (PyStr "data")) system1) = [] /\
  events (exec (@load sample_collab (PyStr "data")) system1) = [].
Proof.
  split; [split; reflexivity|]. split; [reflexivity|].
  apply (@successful_load_replaces_model_reference sample_collab
           (PyStr "data") system1 sample_made).
  - split; reflexivity.
  - reflexivity.
Defined.

(** C8. When construction fails inside [_build_model], the result event
    carries [None] and [MainWindow.set_model], given [None], returns at
    once without touching anything: after the load the central widget and
    [ActionButtons] hold the references they held before, and every model
    object that existed is unchanged. *)
Theorem failed_load_keeps_previous_model `{Collab : Collaborators}
    (filename : pyval) (st : System) (e : exc) :
  quiescent st ->
  construct filename = Raises e ->
  isinstance_Exception e = true ->
  List.filter is_result_emit
    (effects_since (world st) (world (exec (load filename) st))) =
    [Emit (Result PyNone)] /\
  (forall w : World, MainWindow_set_model PyNone w = (Returns tt, w)) /\
  main_model (world (exec (load filename) st)) = main_model (world st) /\
  action_model (world (exec (load filename) st)) =
    action_model (world st) /\
  (forall (r : ref) (m : DataModel),
     heap (world st) !! r = Some m ->
     heap (world (exec (load filename) st)) !! r = Some m).
Proof.
  intros Hq Hcons Hexc. unfold exec.
  rewrite (load_failure filename st e Hq Hcons Hexc). cbn [snd world].
  erewrite effects_since_app by reflexivity.
  repeat split.
  intros r m. apply heap_extension_keeps.
Qed.

Lemma failed_load_keeps_previous_model_witness :
  quiescent system1 /\
  @construct sample_collab (PyStr "broken.zip") = Raises ValueError /\
  isinstance_Exception ValueError = true /\
  List.filter is_result_emit
    (effects_since (world system1)
       (world (exec (@load sample_collab (PyStr "broken.zip")) system1))) =
    [Emit (Result PyNone)] /\
  (forall w : World,
     @MainWindow_set_model PyNone w = (Returns tt, w)) /\
  main_model
    (world (exec (@load sample_collab (PyStr "broken.zip")) system1)) =
    main_model (world system1) /\
  action_model
    (world (exec (@load sample_collab (PyStr "broken.zip")) system1)) =
    action_model (world system1) /\
  (forall (r : ref) (m : DataModel),
     heap (world system1) !! r = Some m ->
     heap (world (exec (@load sample_collab (PyStr "broken.zip")) system1))
       !! r = Some m).
Proof.
  split; [split; reflexivity|]. split; [reflexivity|]. split; [reflexivity|].
  apply (@failed_load_keeps_previous_model sample_collab
           (PyStr "broken.zip") system1 ValueError).
  - split; reflexivity.
  - reflexivity.
  - reflexivity.
Defined.

(** ** Track selection *)

(** C9. When [on_selected_tracks_change] is called with the selection the
    model already has, it returns after its print: the model object and
    every other component of the state are unchanged,
    [update_selected_tracks] is not called and the window is not
    updated. *)
Theorem unchanged_selection_is_noop `{Collab : Collaborators}
    (sel : list string) (w : World) (r : ref) (m : DataModel) :
  action_model w = PyModel r ->
  heap w !! r = Some m ->
  sel = selected_tracks m ->
  ActionButtons_on_selected_tracks_change sel w =
    (Returns tt,
     log_effect
       (Print [PyStr "on_selected_tracks_change:"; PyList (PyStr <$> sel);
               PyTuple []; PyDict []]) w) /\
  heap (exec (ActionButtons_on_selected_tracks_change sel) w) !! r =
    Some m /\
  same_state w (exec (ActionButtons_on_selected_tracks_change sel) w) /\
  count_effects is_update
    (effects_since w (exec (ActionButtons_on_selected_tracks_change sel) w))
    = 0.
Proof.
  intros Hmodel Hheap Hsel.
  assert (Hrun :
    ActionButtons_on_selected_tracks_change sel w =
    (Returns tt,
     log_effect
       (Print [PyStr "on_selected_tracks_change:"; PyList (PyStr <$> sel);
               PyTuple []; PyDict []]) w)).
  { unfold ActionButtons_on_selected_tracks_change, deref. py_simpl.
    rewrite Hmodel, Hheap. cbn.
    now rewrite bool_decide_true. }
  split; [exact Hrun|].
  unfold exec. rewrite Hrun. cbn [snd].
  rewrite effects_since_log.
  split; [exact Hheap|]. now repeat split.
Qed.

Lemma unchanged_selection_is_noop_witness :
  action_model world1 = PyModel 0 /\
  heap world1 !! 0 = Some sample_made /\
  ["chrom"; "ploidy"] = selected_tracks sample_made /\
  @ActionButtons_on_selected_tracks_change sample_collab
      ["chrom"; "ploidy"] world1 =
    (Returns tt,
     log_effect
       (Print [PyStr "on_selected_tracks_change:";
               PyList (PyStr <$> ["chrom"; "ploidy"]);
               PyTuple []; PyDict []]) world1) /\
  heap (exec (@ActionButtons_on_selected_tracks_change sample_collab
                ["chrom"; "ploidy"]) world1) !! 0 = Some sample_made /\
  same_state world1
    (exec (@ActionButtons_on_selected_tracks_change sample_collab
             ["chrom"; "ploidy"]) world1) /\
  count_effects is_update
    (effects_since world1
       (exec (@ActionButtons_on_selected_tracks_change sample_collab
                ["chrom"; "ploidy"]) world1)) = 0.
Proof.
  split; [reflexivity|]. split; [reflexivity|]. split; [reflexivity|].
  apply (@unchanged_selection_is_noop sample_collab ["chrom"; "ploidy"]
           world1 0 sample_made); reflexivity.
Defined.

(** A different selection is written to the model, which is then asked to
    update, and the window is updated. *)
Example changed_selection_updates :
  @ActionButtons_on_selected_tracks_change sample_collab ["chrom"] world1 =
    (Returns tt,
     mkWorld false false true true (PyModel 0) (PyModel 0)
       [mkDataModel ["chrom"] (PyStr "guide") (PyStr "features")]
       [Print [PyStr "on_selected_tracks_change:"; PyList [PyStr "chrom"];
               PyTuple []; PyDict []];
        UpdateSelectedTracks 0; MainUpdate; SuperUpdate]).
Proof. reflexivity. Qed.

(** * Further properties *)

(** ** Worker.run, whatever the callable does *)

(** X1. Whatever the callable does (return, raise an [Exception], raise
    anything else), [Worker.run] emits a finished event exactly once and as
    the last thing it does; before it there is at most one result or error
    event, never both. *)
Theorem Worker_run_always_finishes_last `{Collab : Collaborators}
    (self : Worker) (st : System) :
  exists (before : list effect) (queued : list (WorkerSignals * signal)),
    effects_since (snd (Worker_call self (world st)))
      (world (exec (Worker_run self) st)) = before ++ [Emit Finished] /\
    count_effects is_finished_emit before = 0 /\
    count_effects is_result_emit before + count_effects is_error_emit before
      <= 1 /\
    events (exec (Worker_run self) st) =
      events st ++ queued ++ [(signals self, Finished)] /\
    length queued <= 1.
Proof.
  destruct (Worker_call self (world st)) as [[v|e] w1] eqn:Hcall.
  - exists [Emit (Result v)], [(signals self, Result v)].
    unfold exec. rewrite (Worker_run_returns self st v w1 Hcall).
    cbn [snd world events].
    erewrite effects_since_app
      by (cbn; rewrite <- app_assoc; reflexivity).
    repeat split; cbn; lia.
  - destruct (isinstance_Exception e) eqn:Hexc.
    + exists [PrintExc e; Emit (Error (exc_type e, e, format_exc e))],
             [(signals self, Error (exc_type e, e, format_exc e))].
      unfold exec.
      rewrite (Worker_run_raises_Exception self st e w1 Hcall Hexc).
      cbn [snd world events].
      erewrite effects_since_app
        by (cbn; rewrite <- !app_assoc; reflexivity).
      repeat split; cbn; lia.
    + exists [], [].
      unfold exec.
      rewrite (Worker_run_raises_other self st e w1 Hcall Hexc).
      cbn [snd world events].
      rewrite effects_since_log.
      repeat split; cbn; lia.
Qed.

(** X2. [Worker.run] itself raises exactly when the callable raised
    something that is not an instance of [Exception], and then it raises
    that same exception. *)
Theorem Worker_run_raises_iff `{Collab : Collaborators}
    (self : Worker) (st : System) (e : exc) :
  fst (Worker_run self st) = Raises e <->
  fst (Worker_call self (world st)) = Raises e /\
  isinstance_Exception e = false.
Proof.
  destruct (Worker_call self (world st)) as [[v|e0] w1] eqn:Hcall.
  - rewrite (Worker_run_returns self st v w1 Hcall). cbn.
    split; [discriminate | intros [H _]; discriminate H].
  - destruct (isinstance_Exception e0) eqn:Hexc.
    + rewrite (Worker_run_raises_Exception self st e0 w1 Hcall Hexc). cbn.
      split; [discriminate|].
      intros [[= ->] Hno]. congruence.
    + rewrite (Worker_run_raises_other self st e0 w1 Hcall Hexc). cbn.
      split.
      * intros [= ->]. now split.
      * intros [[= ->] _]. reflexivity.
Qed.

(** X3. [Worker.run] adds nothing of its own to the window: after it, the
    buttons, the model references and the heap are as the callable left
    them, and no worker was handed to the pool. *)
Theorem Worker_run_frame `{Collab : Collaborators}
    (self : Worker) (st : System) :
  same_state (snd (Worker_call self (world st)))
             (world (exec (Worker_run self) st)) /\
  threadpool (exec (Worker_run self) st) = threadpool st /\
  count_effects is_threadpool_start
    (effects_since (snd (Worker_call self (world st)))
       (world (exec (Worker_run self) st))) = 0.
Proof.
  destruct (Worker_call self (world st)) as [[v|e] w1] eqn:Hcall;
    [|destruct (isinstance_Exception e) eqn:Hexc]; unfold exec.
  - rewrite (Worker_run_returns self st v w1 Hcall).
    cbn [snd world threadpool].
    erewrite effects_since_app
      by (cbn; rewrite <- app_assoc; reflexivity).
    now repeat split.
  - rewrite (Worker_run_raises_Exception self st e w1 Hcall Hexc).
    cbn [snd world threadpool].
    erewrite effects_since_app
      by (cbn; rewrite <- !app_assoc; reflexivity).
    now repeat split.
  - rewrite (Worker_run_raises_other self st e w1 Hcall Hexc).
    cbn [snd world threadpool].
    rewrite effects_since_log.
    now repeat split.
Qed.

(** ** Loads, whatever the construction does *)

Lemma load_escapes `{Collab : Collaborators} (filename : pyval)
    (st : System) (e : exc) :
  quiescent st ->
  construct filename = Raises e ->
  isinstance_Exception e = false ->
  load filename st =
    (Raises e,
     mkSystem (world_escaped filename (world st)) []
              [(signals (load_worker filename), Finished)]).
Proof.
  destruct st as [w pool evs]. intros [Hpool Hevs] Hcons Hexc.
  cbn in Hpool, Hevs. subst pool evs.
  unfold load. py_simpl. rewrite load_model_starts. cbn.
  unfold pool_step. cbn.
  pose proof (build_model_lets_through filename [] signal_kwargs
                (world_started filename w) e Hcons Hexc) as Hcall.
  rewrite <- load_worker_call in Hcall.
  rewrite (Worker_run_raises_other _
             (mkSystem (world_started filename w) [] []) _ _ Hcall Hexc).
  unfold world_escaped, log_effect. cbn.
  now rewrite <- !app_assoc.
Qed.

(** X4. No load ever reaches the error path of [Worker.run]: whether the
    construction returns, raises an [Exception] or raises anything else,
    the load prints no traceback and emits no error event, so the slot
    connected to the error signal is never called. *)
Theorem load_never_emits_error `{Collab : Collaborators}
    (filename : pyval) (st : System) :
  quiescent st ->
  count_effects is_error_emit
    (effects_since (world st) (world (exec (load filename) st))) = 0 /\
  count_effects is_print_exc
    (effects_since (world st) (world (exec (load filename) st))) = 0 /\
  count_effects is_finished_emit
    (effects_since (world st) (world (exec (load filename) st))) = 1.
Proof.
  intros Hq. unfold exec.
  destruct (construct filename) as [m'|e] eqn:Hcons;
    [|destruct (isinstance_Exception e) eqn:Hexc].
  - rewrite (load_success filename st m' Hq Hcons). cbn [snd world].
    erewrite effects_since_app by reflexivity. now repeat split.
  - rewrite (load_failure filename st e Hq Hcons Hexc). cbn [snd world].
    erewrite effects_since_app by reflexivity. now repeat split.
  - rewrite (load_escapes filename st e Hq Hcons Hexc). cbn [snd world].
    erewrite effects_since_app by reflexivity. now repeat split.
Qed.

Lemma load_never_emits_error_witness :
  quiescent system1 /\
  count_effects is_error_emit
    (effects_since (world system1)
       (world (exec (@load sample_collab (PyStr "broken.zip")) system1)))
    = 0 /\
  count_effects is_print_exc
    (effects_since (world system1)
       (world (exec (@load sample_collab (PyStr "broken.zip")) system1)))
    = 0 /\
  count_effects is_finished_emit
    (effects_since (world system1)
       (world (exec (@load sample_collab (PyStr "broken.zip")) system1)))
    = 1.
Proof.
  split; [split; reflexivity|].
  apply (@load_never_emits_error sample_collab (PyStr "broken.zip") system1).
  split; reflexivity.
Defined.

(** X5. When the construction raises something that is not an instance of
    [Exception], neither [_build_model] nor [Worker.run] catches it: no
    result event is emitted, only the finished event is queued, the model
    references are untouched, and the open actions, disabled at the start,
    stay disabled, also after the UI thread has handled the finished
    event. *)
Theorem uncaught_exception_leaves_open_actions_disabled
    `{Collab : Collaborators} (filename : pyval) (st : System) (e : exc) :
  quiescent st ->
  construct filename = Raises e ->
  isinstance_Exception e = false ->
  fst (load filename st) = Raises e /\
  world (exec (load filename) st) = world_escaped filename (world st) /\
  events (exec (load filename) st) =
    [(signals (load_worker filename), Finished)] /\
  count_effects is_result_emit
    (effects_since (world st) (world (exec (load filename) st))) = 0 /\
  open_dir_enabled
    (world (exec process_events (exec (load filename) st))) = false /\
  open_archive_enabled
    (world (exec process_events (exec (load filename) st))) = false /\
  main_model (world (exec process_events (exec (load filename) st))) =
    main_model (world st) /\
  action_model (world (exec process_events (exec (load filename) st))) =
    action_model (world st) /\
  effects_since (world (exec (load filename) st))
    (world (exec process_events (exec (load filename) st))) =
    [MainUpdate; SuperUpdate].
Proof.
  intros Hq Hcons Hexc. unfold exec.
  rewrite (load_escapes filename st e Hq Hcons Hexc).
  cbn [fst snd world events].
  erewrite effects_since_app by reflexivity.
  split; [reflexivity|]. split; [reflexivity|]. split; [reflexivity|].
  split; [reflexivity|].
  unfold load_worker, connect_finished, connect_error, connect_result,
    Worker_init. py_run.
  repeat split.
  rewrite <- app_assoc. apply drop_app_length.
Qed.

Lemma uncaught_exception_leaves_open_actions_disabled_witness :
  quiescent system0 /\
  @construct exiting_collab (PyStr "data") = Raises SystemExit_0 /\
  isinstance_Exception SystemExit_0 = false /\
  fst (@load exiting_collab (PyStr "data") system0) = Raises SystemExit_0 /\
  world (exec (@load exiting_collab (PyStr "data")) system0) =
    @world_escaped exiting_collab (PyStr "data") (world system0) /\
  events (exec (@load exiting_collab (PyStr "data")) system0) =
    [(signals (@load_worker exiting_collab (PyStr "data")), Finished)] /\
  count_effects is_result_emit
    (effects_since (world system0)
       (world (exec (@load exiting_collab (PyStr "data")) system0))) = 0 /\
  open_dir_enabled
    (world (exec (@process_events)
              (exec (@load exiting_collab (PyStr "data")) system0)))
    = false /\
  open_archive_enabled
    (world (exec (@process_events)
              (exec (@load exiting_collab (PyStr "data")) system0)))
    = false /\
  main_model
    (world (exec (@process_events)
              (exec (@load exiting_collab (PyStr "data")) system0)))
    = main_model (world system0) /\
  action_model
    (world (exec (@process_events)
              (exec (@load exiting_collab (PyStr "data")) system0)))
    = action_model (world system0) /\
  effects_since (world (exec (@load exiting_collab (PyStr "data")) system0))
    (world (exec (@process_events)
              (exec (@load exiting_collab (PyStr "data")) system0))) =
    [MainUpdate; SuperUpdate].
Proof.
  split; [split; reflexivity|]. split; [reflexivity|]. split; [reflexivity|].
  apply (@uncaught_exception_leaves_open_actions_disabled exiting_collab
           (PyStr "data") system0 SystemExit_0).
  - split; reflexivity.
  - reflexivity.
  - reflexivity.
Defined.

(** X6. A failed load leaves the window ready for another try: a load
    that fails followed by one that succeeds ends with the central widget
    and [ActionButtons] holding the new model, every older model object
    intact, nothing left in the pool or the queue, and the open actions
    disabled by the second load. *)
Theorem load_after_failed_load `{Collab : Collaborators}
    (bad good : pyval) (st : System) (e : exc) (m' : DataModel) :
  quiescent st ->
  construct bad = Raises e ->
  isinstance_Exception e = true ->
  construct good = Returns m' ->
  (load bad ;; load good) st =
    (Returns tt,
     mkSystem (world_loaded good m' (world_failed bad (world st))) [] []) /\
  action_model (world (exec (load bad ;; load good) st)) =
    PyModel (length (heap (world st)) + length (leftover bad)) /\
  main_model (world (exec (load bad ;; load good) st)) =
    PyModel (length (heap (world st)) + length (leftover bad)) /\
  heap (world (exec (load bad ;; load good) st))
    !! (length (heap (world st)) + length (leftover bad)) = Some m' /\
  (forall (r : ref) (m : DataModel),
     heap (world st) !! r = Some m ->
     heap (world (exec (load bad ;; load good) st)) !! r = Some m) /\
  open_dir_enabled (world (exec (load bad ;; load good) st)) = false /\
  open_archive_enabled (world (exec (load bad ;; load good) st)) = false.
Proof.
  intros Hq Hbad Hexc Hgood.
  assert (Hrun :
    (load bad ;; load good) st =
    (Returns tt,
     mkSystem (world_loaded good m' (world_failed bad (world st))) [] [])).
  { cbv [mbind Py_bind].
    rewrite (load_failure bad st e Hq Hbad Hexc).
    apply load_success; [split; reflexivity | exact Hgood]. }
  split; [exact Hrun|].
  unfold exec. rewrite Hrun.
  cbn [snd world world_loaded world_failed heap main_model action_model
       open_dir_enabled open_archive_enabled].
  rewrite length_app.
  repeat split.
  - rewrite <- length_app. apply heap_alloc_lookup.
  - intros r m Hr. now apply heap_extension_keeps, heap_extension_keeps.
Qed.

Lemma load_after_failed_load_witness :
  quiescent system0 /\
  @construct sample_collab (PyStr "broken.zip") = Raises ValueError /\
  isinstance_Exception ValueError = true /\
  @construct sample_collab (PyStr "data") = Returns sample_made /\
  (@load sample_collab (PyStr "broken.zip") ;;
   @load sample_collab (PyStr "data")) system0 =
    (Returns tt,
     mkSystem
       (@world_loaded (PyStr "data") sample_made
          (@world_failed sample_collab (PyStr "broken.zip") (world system0)))
       [] []) /\
  action_model
    (world (exec (@load sample_collab (PyStr "broken.zip") ;;
                  @load sample_collab (PyStr "data")) system0)) =
    PyModel (length (heap (world system0)) +
             length (@leftover sample_collab (PyStr "broken.zip"))) /\
  main_model
    (world (exec (@load sample_collab (PyStr "broken.zip") ;;
                  @load sample_collab (PyStr "data")) system0)) =
    PyModel (length (heap (world system0)) +
             length (@leftover sample_collab (PyStr "broken.zip"))) /\
  heap (world (exec (@load sample_collab (PyStr "broken.zip") ;;
                     @load sample_collab (PyStr "data")) system0))
    !! (length (heap (world system0)) +
        length (@leftover sample_collab (PyStr "broken.zip")))
    = Some sample_made /\
  (forall (r : ref) (m : DataModel),
     heap (world system0) !! r = Some m ->
     heap (world (exec (@load sample_collab (PyStr "broken.zip") ;;
                        @load sample_collab (PyStr "data")) system0)) !! r
       = Some m) /\
  open_dir_enabled
    (world (exec (@load sample_collab (PyStr "broken.zip") ;;
                  @load sample_collab (PyStr "data")) system0)) = false /\
  open_archive_enabled
    (world (exec (@load sample_collab (PyStr "broken.zip") ;;
                  @load sample_collab (PyStr "data")) system0)) = false.
Proof.
  split; [split; reflexivity|]. split; [reflexivity|].
  split; [reflexivity|]. split; [reflexivity|].
  apply (@load_after_failed_load sample_collab (PyStr "broken.zip")
           (PyStr "data") system0 ValueError sample_made).
  - split; reflexivity.
  - reflexivity.
  - reflexivity.
  - reflexivity.
Defined.

(** ** Track selection, continued *)

Lemma selection_unchanged `{Collab : Collaborators} (sel : list string)
    (w : World) (r : ref) (m : DataModel) :
  action_model w = PyModel r ->
  heap w !! r = Some m ->
  sel = selected_tracks m ->
  ActionButtons_on_selected_tracks_change sel w =
    (Returns tt,
     log_effect
       (Print [PyStr "on_selected_tracks_change:"; PyList (PyStr <$> sel);
               PyTuple []; PyDict []]) w).
Proof.
  intros Hmodel Hheap Hsel.
  unfold ActionButtons_on_selected_tracks_change, deref. py_simpl.
  rewrite Hmodel, Hheap. cbn.
  now rewrite bool_decide_true.
Qed.

Lemma selection_changed `{Collab : Collaborators} (sel : list string)
    (w : World) (r : ref) (m : DataModel) :
  action_model w = PyModel r ->
  heap w !! r = Some m ->
  sel <> selected_tracks m ->
  ActionButtons_on_selected_tracks_change sel w =
    (Returns tt, world_selected sel r m w).
Proof.
  intros Hmodel Hheap Hsel.
  pose proof (lookup_lt_Some _ _ _ Hheap) as Hlt.
  unfold ActionButtons_on_selected_tracks_change, set_selected_tracks,
    update_selected_tracks_call, deref, MainWindow_update.
  py_simpl. rewrite Hmodel, Hheap. cbn.
  rewrite bool_decide_false by exact Hsel. cbn.
  rewrite Hheap. cbn.
  rewrite list_lookup_insert_eq by exact Hlt. cbn.
  rewrite list_insert_insert_eq.
  unfold world_selected, log_effect. cbn.
  now rewrite <- !app_assoc.
Qed.

(** X7. A selection that differs from the model's is written to the one
    model object that the central widget and [ActionButtons] share: the
    object then holds what [update_selected_tracks] made of the new
    selection, no other model object and no button changes, and the
    handler calls [update_selected_tracks] once and then updates the
    window. *)
Theorem changed_selection_updates_shared_model `{Collab : Collaborators}
    (sel : list string) (w : World) (r : ref) (m : DataModel) :
  action_model w = PyModel r ->
  heap w !! r = Some m ->
  sel <> selected_tracks m ->
  fst (ActionButtons_on_selected_tracks_change sel w) = Returns tt /\
  heap (exec (ActionButtons_on_selected_tracks_change sel) w) !! r =
    Some (DataModel_update_selected_tracks
            (mkDataModel sel (guide_df m) (features_df m))) /\
  (forall r' : ref,
     r' <> r ->
     heap (exec (ActionButtons_on_selected_tracks_change sel) w) !! r' =
     heap w !! r') /\
  length (heap (exec (ActionButtons_on_selected_tracks_change sel) w)) =
    length (heap w) /\
  (main_model w = action_model w ->
   main_model (exec (ActionButtons_on_selected_tracks_change sel) w) =
     PyModel r) /\
  action_model (exec (ActionButtons_on_selected_tracks_change sel) w) =
    PyModel r /\
  effects_since w (exec (ActionButtons_on_selected_tracks_change sel) w) =
    [Print [PyStr "on_selected_tracks_change:"; PyList (PyStr <$> sel);
            PyTuple []; PyDict []];
     UpdateSelectedTracks r; MainUpdate; SuperUpdate] /\
  open_dir_enabled (exec (ActionButtons_on_selected_tracks_change sel) w) =
    open_dir_enabled w /\
  open_archive_enabled
    (exec (ActionButtons_on_selected_tracks_change sel) w) =
    open_archive_enabled w /\
  feature_view_enabled
    (exec (ActionButtons_on_selected_tracks_change sel) w) =
    feature_view_enabled w /\
  configure_tracks_enabled
    (exec (ActionButtons_on_selected_tracks_change sel) w) =
    configure_tracks_enabled w.
Proof.
  intros Hmodel Hheap Hsel.
  pose proof (lookup_lt_Some _ _ _ Hheap) as Hlt.
  unfold exec.
  rewrite (selection_changed sel w r m Hmodel Hheap Hsel).
  cbn [fst snd world_selected heap main_model action_model].
  erewrite effects_since_app by reflexivity.
  split; [reflexivity|].
  split; [now apply list_lookup_insert_eq|].
  split; [intros r' Hne; now apply list_lookup_insert_ne|].
  split; [apply length_insert|].
  split; [congruence|].
  split; [exact Hmodel|].
  now repeat split.
Qed.

Lemma changed_selection_updates_shared_model_witness :
  action_model world1 = PyModel 0 /\
  heap world1 !! 0 = Some sample_made /\
  ["chrom"] <> selected_tracks sample_made /\
  fst (@ActionButtons_on_selected_tracks_change sample_collab ["chrom"]
         world1) = Returns tt /\
  heap (exec (@ActionButtons_on_selected_tracks_change sample_collab
                ["chrom"]) world1) !! 0 =
    Some (@DataModel_update_selected_tracks sample_collab
            (mkDataModel ["chrom"] (guide_df sample_made)
               (features_df sample_made))) /\
  (forall r' : ref,
     r' <> 0 ->
     heap (exec (@ActionButtons_on_selected_tracks_change sample_collab
                   ["chrom"]) world1) !! r' =
     heap world1 !! r') /\
  length (heap (exec (@ActionButtons_on_selected_tracks_change sample_collab
                        ["chrom"]) world1)) =
    length (heap world1) /\
  (main_model world1 = action_model world1 ->
   main_model (exec (@ActionButtons_on_selected_tracks_change sample_collab
                       ["chrom"]) world1) = PyModel 0) /\
  action_model (exec (@ActionButtons_on_selected_tracks_change sample_collab
                        ["chrom"]) world1) = PyModel 0 /\
  effects_since world1
    (exec (@ActionButtons_on_selected_tracks_change sample_collab ["chrom"])
          world1) =
    [Print [PyStr "on_selected_tracks_change:";
            PyList (PyStr <$> ["chrom"]); PyTuple []; PyDict []];
     UpdateSelectedTracks 0; MainUpdate; SuperUpdate] /\
  open_dir_enabled
    (exec (@ActionButtons_on_selected_tracks_change sample_collab ["chrom"])
          world1) = open_dir_enabled world1 /\
  open_archive_enabled
    (exec (@ActionButtons_on_selected_tracks_change sample_collab ["chrom"])
          world1) = open_archive_enabled world1 /\
  feature_view_enabled
    (exec (@ActionButtons_on_selected_tracks_change sample_collab ["chrom"])
          world1) = feature_view_enabled world1 /\
  configure_tracks_enabled
    (exec (@ActionButtons_on_selected_tracks_change sample_collab ["chrom"])
          world1) = configure_tracks_enabled world1.
Proof.
  split; [reflexivity|]. split; [reflexivity|]. split; [discriminate|].
  apply (@changed_selection_updates_shared_model sample_collab ["chrom"]
           world1 0 sample_made).
  - reflexivity.
  - reflexivity.
  - discriminate.
Defined.

(** X8. Called while no model is set ([self.model] is [None]), the handler
    raises [AttributeError] at the comparison, after its print: no model
    object, reference or button has changed and the window is not
    updated. *)
Theorem selection_change_without_model_raises `{Collab : Collaborators}
    (sel : list string) (w : World) :
  action_model w = PyNone ->
  ActionButtons_on_selected_tracks_change sel w =
    (Raises AttributeError,
     log_effect
       (Print [PyStr "on_selected_tracks_change:"; PyList (PyStr <$> sel);
               PyTuple []; PyDict []]) w) /\
  same_state w (exec (ActionButtons_on_selected_tracks_change sel) w) /\
  count_effects is_update
    (effects_since w (exec (ActionButtons_on_selected_tracks_change sel) w))
    = 0.
Proof.
  intros Hmodel.
  assert (Hrun :
    ActionButtons_on_selected_tracks_change sel w =
    (Raises AttributeError,
     log_effect
       (Print [PyStr "on_selected_tracks_change:"; PyList (PyStr <$> sel);
               PyTuple []; PyDict []]) w)).
  { unfold ActionButtons_on_selected_tracks_change, deref. py_simpl.
    now rewrite Hmodel. }
  split; [exact Hrun|].
  unfold exec. rewrite Hrun. cbn [snd].
  rewrite effects_since_log. now repeat split.
Qed.

Lemma selection_change_without_model_raises_witness :
  action_model world0 = PyNone /\
  @ActionButtons_on_selected_tracks_change sample_collab ["chrom"] world0 =
    (Raises AttributeError,
     log_effect
       (Print [PyStr "on_selected_tracks_change:";
               PyList (PyStr <$> ["chrom"]); PyTuple []; PyDict []])
       world0) /\
  same_state world0
    (exec (@ActionButtons_on_selected_tracks_change sample_collab ["chrom"])
          world0) /\
  count_effects is_update
    (effects_since world0
       (exec (@ActionButtons_on_selected_tracks_change sample_collab
                ["chrom"]) world0)) = 0.
Proof.
  split; [reflexivity|].
  apply (@selection_change_without_model_raises sample_collab ["chrom"]
           world0).
  reflexivity.
Defined.

(** X9. Reporting the same selection twice updates once: provided
    [update_selected_tracks] leaves the selection it was given in place,
    the second call finds nothing to do, so that the two calls together
    call [update_selected_tracks] and update the window exactly once. *)
Theorem repeated_selection_updates_once `{Collab : Collaborators}
    (sel : list string) (w : World) (r : ref) (m : DataModel) :
  action_model w = PyModel r ->
  heap w !! r = Some m ->
  sel <> selected_tracks m ->
  selected_tracks
    (DataModel_update_selected_tracks
       (mkDataModel sel (guide_df m) (features_df m))) = sel ->
  (ActionButtons_on_selected_tracks_change sel ;;
   ActionButtons_on_selected_tracks_change sel) w =
    (Returns tt,
     log_effect
       (Print [PyStr "on_selected_tracks_change:"; PyList (PyStr <$> sel);
               PyTuple []; PyDict []])
       (world_selected sel r m w)) /\
  effects_since w
    (exec (ActionButtons_on_selected_tracks_change sel ;;
           ActionButtons_on_selected_tracks_change sel) w) =
    [Print [PyStr "on_selected_tracks_change:"; PyList (PyStr <$> sel);
            PyTuple []; PyDict []];
     UpdateSelectedTracks r; MainUpdate; SuperUpdate;
     Print [PyStr "on_selected_tracks_change:"; PyList (PyStr <$> sel);
            PyTuple []; PyDict []]].
Proof.
  intros Hmodel Hheap Hsel Hkeeps.
  pose proof (lookup_lt_Some _ _ _ Hheap) as Hlt.
  assert (Hrun :
    (ActionButtons_on_selected_tracks_change sel ;;
     ActionButtons_on_selected_tracks_change sel) w =
    (Returns tt,
     log_effect
       (Print [PyStr "on_selected_tracks_change:"; PyList (PyStr <$> sel);
               PyTuple []; PyDict []])
       (world_selected sel r m w))).
  { cbv [mbind Py_bind].
    rewrite (selection_changed sel w r m Hmodel Hheap Hsel).
    pose proof (selection_unchanged sel (world_selected sel r m w) r
      (DataModel_update_selected_tracks
         (mkDataModel sel (guide_df m) (features_df m)))) as Hsecond.
    apply Hsecond.
    - exact Hmodel.
    - cbn. now apply list_lookup_insert_eq.
    - now rewrite Hkeeps. }
  split; [exact Hrun|].
  unfold exec. rewrite Hrun. cbn [snd].
  apply effects_since_app. cbn. now rewrite <- !app_assoc.
Qed.

Lemma repeated_selection_updates_once_witness :
  action_model world1 = PyModel 0 /\
  heap world1 !! 0 = Some sample_made /\
  ["chrom"] <> selected_tracks sample_made /\
  selected_tracks
    (@DataModel_update_selected_tracks sample_collab
       (mkDataModel ["chrom"] (guide_df sample_made)
          (features_df sample_made))) = ["chrom"] /\
  (@ActionButtons_on_selected_tracks_change sample_collab ["chrom"] ;;
   @ActionButtons_on_selected_tracks_change sample_collab ["chrom"]) world1 =
    (Returns tt,
     log_effect
       (Print [PyStr "on_selected_tracks_change:";
               PyList (PyStr <$> ["chrom"]); PyTuple []; PyDict []])
       (@world_selected sample_collab ["chrom"] 0 sample_made world1)) /\
  effects_since world1
    (exec (@ActionButtons_on_selected_tracks_change sample_collab ["chrom"] ;;
           @ActionButtons_on_selected_tracks_change sample_collab ["chrom"])
          world1) =
    [Print [PyStr "on_selected_tracks_change:";
            PyList (PyStr <$> ["chrom"]); PyTuple []; PyDict []];
     UpdateSelectedTracks 0; MainUpdate; SuperUpdate;
     Print [PyStr "on_selected_tracks_change:";
            PyList (PyStr <$> ["chrom"]); PyTuple []; PyDict []]].
Proof.
  split; [reflexivity|]. split; [reflexivity|]. split; [discriminate|].
  split; [reflexivity|].
  apply (@repeated_selection_updates_once sample_collab ["chrom"] world1 0
           sample_made).
  - reflexivity.
  - reflexivity.
  - discriminate.
  - reflexivity.
Defined.

(** ** The feature view and the track configuration dialogs *)

(** Unfolds the dialog handlers' plumbing as well. *)
Ltac desk_simpl :=
  repeat progress
    (cbv [in_desk on_window call show ActionButtons_on_feature_view_closing];
     py_simpl).

Lemma delete_last {A} (l : list A) (x : A) :
  delete (length l) (l ++ [x]) = l.
Proof.
  induction l as [|a l IH]; [reflexivity|].
  simpl. f_equal. exact IH.
Qed.

Lemma feature_view_runs `{DCollab : DialogCollaborators} (dk : Desk)
    (r : ref) (m : DataModel) :
  action_model (world (desk dk)) = PyModel r ->
  heap (world (desk dk)) !! r = Some m ->
  is_None (features_df m) = false ->
  ActionButtons_on_feature_view_action dk =
    (feature_view_opens m,
     mkDesk
       (mkSystem
          (log_effect (SetEnabled feature_view_action false)
             (with_enabled feature_view_action false (world (desk dk))))
          (threadpool (desk dk)) (events (desk dk)))
       (match feature_view_opens m with
        | Returns _ => shown dk ++ [HeatmapWindow (PyModel r)]
        | Raises _ => shown dk
        end)).
Proof.
  destruct dk as [[w pool evs] sh]. cbn. intros Hmodel Hheap Hfeat.
  unfold ActionButtons_on_feature_view_action, feature_view_opens, deref.
  desk_simpl. rewrite Hmodel. cbn. rewrite Hheap. cbn. rewrite Hfeat.
  desk_simpl.
  destruct (FeaturematModel_init m) as [fm|e]; [|reflexivity]. cbn.
  destruct (FeaturematModel_make fm) as [fm'|e]; [|reflexivity]. cbn.
  destruct (HeatmapWindow_init fm') as [[]|e]; reflexivity.
Qed.

(** X10. [on_feature_view_action] does nothing at all when no model is
    set, or when the model has no feature data: no button changes and no
    dialog opens. *)
Theorem feature_view_needs_features `{DCollab : DialogCollaborators}
    (dk : Desk) :
  action_model (world (desk dk)) = PyNone \/
  (exists (r : ref) (m : DataModel),
     action_model (world (desk dk)) = PyModel r /\
     heap (world (desk dk)) !! r = Some m /\
     features_df m = PyNone) ->
  ActionButtons_on_feature_view_action dk = (Returns tt, dk).
Proof.
  destruct dk as [[w pool evs] sh]. cbn.
  unfold ActionButtons_on_feature_view_action, deref.
  intros [Hnone | (r & m & Hmodel & Hheap & Hfeat)]; desk_simpl.
  - now rewrite Hnone.
  - rewrite Hmodel. cbn. rewrite Hheap. cbn. now rewrite Hfeat.
Qed.

Lemma feature_view_needs_features_witness :
  (action_model (world (desk desk0)) = PyNone \/
   (exists (r : ref) (m : DataModel),
      action_model (world (desk desk0)) = PyModel r /\
      heap (world (desk desk0)) !! r = Some m /\
      features_df m = PyNone)) /\
  @ActionButtons_on_feature_view_action sample_dialogs desk0 =
    (Returns tt, desk0).
Proof.
  split; [left; reflexivity|].
  apply (@feature_view_needs_features sample_dialogs desk0).
  left; reflexivity.
Defined.

(** X11. [on_feature_view_action] disables its action before it builds
    the feature model.  When [FeaturematModel], its [make] or the
    [HeatmapWindow] constructor raises, the exception leaves the handler,
    no dialog is shown, and the action stays disabled: nothing is left
    that would call [on_feature_view_closing]. *)
Theorem failed_feature_view_leaves_action_disabled
    `{DCollab : DialogCollaborators} (dk : Desk) (r : ref) (m : DataModel)
    (e : exc) :
  action_model (world (desk dk)) = PyModel r ->
  heap (world (desk dk)) !! r = Some m ->
  is_None (features_df m) = false ->
  feature_view_opens m = Raises e ->
  fst (ActionButtons_on_feature_view_action dk) = Raises e /\
  feature_view_enabled
    (world (desk (exec ActionButtons_on_feature_view_action dk))) = false /\
  shown (exec ActionButtons_on_feature_view_action dk) = shown dk /\
  effects_since (world (desk dk))
    (world (desk (exec ActionButtons_on_feature_view_action dk))) =
    [SetEnabled feature_view_action false].
Proof.
  intros Hmodel Hheap Hfeat Hopens. unfold exec.
  rewrite (feature_view_runs dk r m Hmodel Hheap Hfeat), Hopens.
  cbn [fst snd desk world shown].
  erewrite effects_since_app by reflexivity. now repeat split.
Qed.

Lemma failed_feature_view_leaves_action_disabled_witness :
  action_model (world (desk desk1)) = PyModel 0 /\
  heap (world (desk desk1)) !! 0 = Some sample_made /\
  is_None (features_df sample_made) = false /\
  @feature_view_opens failing_dialogs sample_made = Raises ValueError /\
  fst (@ActionButtons_on_feature_view_action failing_dialogs desk1) =
    Raises ValueError /\
  feature_view_enabled
    (world (desk (exec (@ActionButtons_on_feature_view_action
                          failing_dialogs) desk1))) = false /\
  shown (exec (@ActionButtons_on_feature_view_action failing_dialogs) desk1)
    = shown desk1 /\
  effects_since (world (desk desk1))
    (world (desk (exec (@ActionButtons_on_feature_view_action
                          failing_dialogs) desk1))) =
    [SetEnabled feature_view_action false].
Proof.
  split; [reflexivity|]. split; [reflexivity|].
  split; [reflexivity|]. split; [reflexivity|].
  apply (@failed_feature_view_leaves_action_disabled failing_dialogs desk1 0
           sample_made ValueError); reflexivity.
Defined.

(** X12. Opening the feature view and closing it again is a round trip:
    while the dialog is on screen the action is disabled; once the dialog
    is closed the action is enabled, the same dialogs are on screen as
    before, and nothing else in the window has changed. *)
Theorem feature_view_open_close `{DCollab : DialogCollaborators}
    (dk : Desk) (r : ref) (m : DataModel) :
  action_model (world (desk dk)) = PyModel r ->
  heap (world (desk dk)) !! r = Some m ->
  is_None (features_df m) = false ->
  feature_view_opens m = Returns tt ->
  feature_view_enabled
    (world (desk (exec ActionButtons_on_feature_view_action dk))) = false /\
  shown (exec ActionButtons_on_feature_view_action dk) =
    shown dk ++ [HeatmapWindow (PyModel r)] /\
  fst ((ActionButtons_on_feature_view_action ;;
        dialog_closing (length (shown dk))) dk) = Returns tt /\
  shown (exec (ActionButtons_on_feature_view_action ;;
               dialog_closing (length (shown dk))) dk) = shown dk /\
  feature_view_enabled
    (world (desk (exec (ActionButtons_on_feature_view_action ;;
                        dialog_closing (length (shown dk))) dk))) = true /\
  (feature_view_enabled (world (desk dk)) = true ->
   same_state (world (desk dk))
     (world (desk (exec (ActionButtons_on_feature_view_action ;;
                         dialog_closing (length (shown dk))) dk)))) /\
  effects_since (world (desk dk))
    (world (desk (exec (ActionButtons_on_feature_view_action ;;
                        dialog_closing (length (shown dk))) dk))) =
    [SetEnabled feature_view_action false;
     SetEnabled feature_view_action true].
Proof.
  intros Hmodel Hheap Hfeat Hopens.
  pose proof (feature_view_runs dk r m Hmodel Hheap Hfeat) as Hrun.
  rewrite Hopens in Hrun.
  unfold exec. cbv [mbind Py_bind]. rewrite Hrun.
  cbn [fst snd desk world shown].
  split; [reflexivity|]. split; [reflexivity|].
  unfold dialog_closing. desk_simpl.
  rewrite (list_lookup_middle (shown dk) [] (HeatmapWindow (PyModel r))
             (length (shown dk)) eq_refl).
  desk_simpl.
  rewrite delete_last.
  split; [reflexivity|]. split; [reflexivity|]. split; [reflexivity|].
  split.
  - intros Henabled. unfold same_state. cbn. now repeat split.
  - apply effects_since_app. cbn. now rewrite <- app_assoc.
Qed.

Lemma feature_view_open_close_witness :
  action_model (world (desk desk1)) = PyModel 0 /\
  heap (world (desk desk1)) !! 0 = Some sample_made /\
  is_None (features_df sample_made) = false /\
  @feature_view_opens sample_dialogs sample_made = Returns tt /\
  feature_view_enabled
    (world (desk (exec (@ActionButtons_on_feature_view_action
                          sample_dialogs) desk1))) = false /\
  shown (exec (@ActionButtons_on_feature_view_action sample_dialogs) desk1) =
    shown desk1 ++ [HeatmapWindow (PyModel 0)] /\
  fst ((@ActionButtons_on_feature_view_action sample_dialogs ;;
        dialog_closing (length (shown desk1))) desk1) = Returns tt /\
  shown (exec (@ActionButtons_on_feature_view_action sample_dialogs ;;
               dialog_closing (length (shown desk1))) desk1) =
    shown desk1 /\
  feature_view_enabled
    (world (desk (exec (@ActionButtons_on_feature_view_action
                          sample_dialogs ;;
                        dialog_closing (length (shown desk1))) desk1)))
    = true /\
  (feature_view_enabled (world (desk desk1)) = true ->
   same_state (world (desk desk1))
     (world (desk (exec (@ActionButtons_on_feature_view_action
                           sample_dialogs ;;
                         dialog_closing (length (shown desk1))) desk1)))) /\
  effects_since (world (desk desk1))
    (world (desk (exec (@ActionButtons_on_feature_view_action
                          sample_dialogs ;;
                        dialog_closing (length (shown desk1))) desk1))) =
    [SetEnabled feature_view_action false;
     SetEnabled feature_view_action true].
Proof.
  split; [reflexivity|]. split; [reflexivity|].
  split; [reflexivity|]. split; [reflexivity|].
  apply (@feature_view_open_close sample_dialogs desk1 0 sample_made);
    reflexivity.
Defined.

(** X13. [on_configure_tracks_action_action] never touches the window:
    whatever the state, buttons, model, pool and queue are as before
    (unlike the feature view, it does not disable its action).  It shows
    nothing unless a model with a guide is set, and then exactly one
    [GuideWindow] on that model, provided the constructor returns. *)
Theorem configure_tracks_only_shows_a_dialog
    `{DCollab : DialogCollaborators} (dk : Desk) :
  desk (exec ActionButtons_on_configure_tracks_action_action dk) = desk dk /\
  (shown (exec ActionButtons_on_configure_tracks_action_action dk) = shown dk
   \/ exists (r : ref) (m : DataModel),
        action_model (world (desk dk)) = PyModel r /\
        heap (world (desk dk)) !! r = Some m /\
        is_None (guide_df m) = false /\
        shown (exec ActionButtons_on_configure_tracks_action_action dk) =
          shown dk ++ [GuideWindow (PyModel r)]) /\
  (forall (r : ref) (m : DataModel),
     action_model (world (desk dk)) = PyModel r ->
     heap (world (desk dk)) !! r = Some m ->
     is_None (guide_df m) = false ->
     GuideWindow_init m = Returns tt ->
     ActionButtons_on_configure_tracks_action_action dk =
       (Returns tt, mkDesk (desk dk) (shown dk ++ [GuideWindow (PyModel r)]))).
Proof.
  destruct dk as [[w pool evs] sh]. cbn [desk world shown].
  unfold exec, ActionButtons_on_configure_tracks_action_action, deref.
  desk_simpl.
  split; [|split].
  - destruct (action_model w) as [| | | | | | |r]; cbn; try reflexivity.
    destruct (heap w !! r) as [m|]; cbn; [|reflexivity].
    destruct (is_None (guide_df m)); cbn; [reflexivity|].
    now destruct (GuideWindow_init m).
  - destruct (action_model w) as [| | | | | | |r]; cbn; try (now left).
    destruct (heap w !! r) as [m|] eqn:Hheap; cbn; [|now left].
    destruct (is_None (guide_df m)) eqn:Hguide; cbn; [now left|].
    destruct (GuideWindow_init m); cbn; [|now left].
    right. exists r, m. now rewrite Hguide.
  - intros r m Hmodel Hheap Hguide Hinit.
    rewrite Hmodel. cbn. rewrite Hheap. cbn. rewrite Hguide, Hinit.
    reflexivity.
Qed.

Lemma configure_tracks_only_shows_a_dialog_witness :
  desk (exec (@ActionButtons_on_configure_tracks_action_action
                sample_dialogs) desk1) = desk desk1 /\
  @ActionButtons_on_configure_tracks_action_action sample_dialogs desk1 =
    (Returns tt, mkDesk (desk desk1) [GuideWindow (PyModel 0)]).
Proof.
  destruct (@configure_tracks_only_shows_a_dialog sample_dialogs desk1)
    as (Hdesk & _ & Hshows).
  split; [exact Hdesk|].
  apply (Hshows 0 sample_made); reflexivity.
Defined.

(** ** What every session keeps *)

Lemma run_threads_started `{Collab : Collaborators} (filename : pyval)
    (w : World) :
  run_threads (mkSystem (world_started filename w) [load_worker filename] [])
    = mkSystem (world_after_load filename w) [] [].
Proof.
  unfold run_threads, world_after_load, exec at 2, pool_step.
  cbn [threadpool world events].
  destruct (construct filename) as [m'|e] eqn:Hcons;
    [|destruct (isinstance_Exception e) eqn:Hexc].
  - pose proof (build_model_returns filename [] signal_kwargs
                  (world_started filename w) m' Hcons) as Hcall.
    rewrite <- load_worker_call in Hcall.
    rewrite (Worker_run_returns _
               (mkSystem (world_started filename w) [] []) _ _ Hcall).
    unfold exec. py_run. unfold world_loaded, log_effect. cbn.
    now rewrite <- !app_assoc.
  - pose proof (build_model_catches filename [] signal_kwargs
                  (world_started filename w) e Hcons Hexc) as Hcall.
    rewrite <- load_worker_call in Hcall.
    rewrite (Worker_run_returns _
               (mkSystem (world_started filename w) [] []) _ _ Hcall).
    unfold exec. py_run. unfold world_failed, log_effect. cbn.
    now rewrite <- !app_assoc.
  - pose proof (build_model_lets_through filename [] signal_kwargs
                  (world_started filename w) e Hcons Hexc) as Hcall.
    rewrite <- load_worker_call in Hcall.
    rewrite (Worker_run_raises_other _
               (mkSystem (world_started filename w) [] []) _ _ Hcall Hexc).
    unfold exec. py_run.
    unfold world_abandoned, world_escaped, log_effect. cbn.
    now rewrite <- !app_assoc.
Qed.

Lemma run_threads_idle `{Collab : Collaborators} (w : World) :
  run_threads (mkSystem w [] []) = mkSystem w [] [].
Proof. reflexivity. Qed.

Lemma advances_same (w w' : World) :
  heap w' = heap w ->
  main_model w' = main_model w ->
  action_model w' = action_model w ->
  advances w w'.
Proof.
  intros Hheap Hmain Haction. split; [now rewrite Hheap|]. now left.
Qed.

Lemma advances_after_load `{Collab : Collaborators} (filename : pyval)
    (w : World) :
  advances w (world_after_load filename w).
Proof.
  unfold world_after_load.
  destruct (construct filename) as [m'|e];
    [|destruct (isinstance_Exception e)]; split; cbn;
    rewrite ?length_app; try lia.
  - right. exists (length (heap w)). cbn. repeat split. lia.
  - now left.
  - now left.
Qed.

Lemma advances_model_ok (w w' : World) :
  model_ok w -> advances w w' -> model_ok w'.
Proof.
  intros [Hagree Hvalid] [Hlen [[Hmain Haction] | (r & Hmain & Haction & Hr)]].
  - split; [congruence|].
    destruct Hvalid as [Hnone | (r & Hr & Hlt)].
    + left. congruence.
    + right. exists r. split; [congruence | lia].
  - split; [congruence|]. right. now exists r.
Qed.

Lemma advances_keeps_model (w w' : World) :
  advances w w' ->
  action_model w <> PyNone -> action_model w' <> PyNone.
Proof.
  intros [_ [[_ Haction] | (r & _ & Haction & _)]] Hset; congruence.
Qed.

Lemma open_directory_click_runs `{Collab : Collaborators} (s d : pyval)
    (w : World) :
  exists w' : World,
    OpenButtons_on_open_directory_click s d (mkSystem w [] []) =
      (Returns tt,
       exec (OpenButtons_on_open_directory_click s d) (mkSystem w [] [])) /\
    run_threads
      (exec (OpenButtons_on_open_directory_click s d) (mkSystem w [] [])) =
      mkSystem w' [] [] /\
    advances w w'.
Proof.
  unfold exec, OpenButtons_on_open_directory_click.
  destruct (is_None d || eq_empty_str d).
  - eexists. split; [reflexivity|]. split; [reflexivity|].
    now apply advances_same.
  - rewrite load_model_starts. cbn [snd world threadpool events app].
    exists (world_after_load d w).
    split; [reflexivity|]. split; [apply run_threads_started|].
    apply advances_after_load.
Qed.

Lemma open_archive_click_runs `{Collab : Collaborators} (s : pyval)
    (d : pyval * pyval) (w : World) :
  exists w' : World,
    OpenButtons_on_open_archive_click s d (mkSystem w [] []) =
      (Returns tt,
       exec (OpenButtons_on_open_archive_click s d) (mkSystem w [] [])) /\
    run_threads
      (exec (OpenButtons_on_open_archive_click s d) (mkSystem w [] [])) =
      mkSystem w' [] [] /\
    advances w w'.
Proof.
  destruct d as [filename selected_filter].
  unfold exec, OpenButtons_on_open_archive_click.
  destruct (is_None filename || eq_empty_str filename).
  - eexists. split; [reflexivity|]. split; [reflexivity|].
    now apply advances_same.
  - rewrite load_model_starts. cbn [snd world threadpool events app].
    exists (world_after_load filename w).
    split; [reflexivity|]. split; [apply run_threads_started|].
    apply advances_after_load.
Qed.

Lemma feature_view_effect `{DCollab : DialogCollaborators} (w : World)
    (pool : list Worker) (evs : list (WorkerSignals * signal))
    (sh : list dialog) :
  exists (w' : World) (sh' : list dialog),
    exec ActionButtons_on_feature_view_action
         (mkDesk (mkSystem w pool evs) sh) =
      mkDesk (mkSystem w' pool evs) sh' /\
    advances w w' /\
    (forall v : pyval, GuideWindow v ∈ sh' -> GuideWindow v ∈ sh).
Proof.
  unfold exec, ActionButtons_on_feature_view_action, deref. desk_simpl.
  destruct (action_model w) as [| | | | | | |r] eqn:Hmodel; cbn;
    try (exists w, sh; split; [reflexivity|];
         split; [now apply advances_same | trivial]).
  destruct (heap w !! r) as [m|]; cbn;
    [|exists w, sh; split; [reflexivity|];
      split; [now apply advances_same | trivial]].
  destruct (is_None (features_df m)); cbn;
    [exists w, sh; split; [reflexivity|];
     split; [now apply advances_same | trivial]|].
  assert (Hadv :
    advances w
      (log_effect (SetEnabled feature_view_action false)
         (with_enabled feature_view_action false w)))
    by now apply advances_same.
  destruct (FeaturematModel_init m) as [fm|e]; cbn;
    [|eexists _, sh; split; [reflexivity|]; split; [exact Hadv | trivial]].
  destruct (FeaturematModel_make fm) as [fm'|e]; cbn;
    [|eexists _, sh; split; [reflexivity|]; split; [exact Hadv | trivial]].
  destruct (HeatmapWindow_init fm') as [[]|e]; cbn;
    [|eexists _, sh; split; [reflexivity|]; split; [exact Hadv | trivial]].
  eexists _, _. split; [reflexivity|]. split; [exact Hadv|].
  intros v [Hin | Hin]%elem_of_app; [exact Hin|].
  apply list_elem_of_singleton in Hin. discriminate Hin.
Qed.

Lemma configure_tracks_effect `{DCollab : DialogCollaborators} (w : World)
    (pool : list Worker) (evs : list (WorkerSignals * signal))
    (sh : list dialog) :
  exists sh' : list dialog,
    exec ActionButtons_on_configure_tracks_action_action
         (mkDesk (mkSystem w pool evs) sh) =
      mkDesk (mkSystem w pool evs) sh' /\
    (forall v : pyval,
       GuideWindow v ∈ sh' ->
       GuideWindow v ∈ sh \/ action_model w <> PyNone).
Proof.
  unfold exec, ActionButtons_on_configure_tracks_action_action, deref.
  desk_simpl.
  destruct (action_model w) as [| | | | | | |r] eqn:Hmodel; cbn;
    try (exists sh; split; [reflexivity | now left]).
  destruct (heap w !! r) as [m|]; cbn;
    [|exists sh; split; [reflexivity | now left]].
  destruct (is_None (guide_df m)); cbn;
    [exists sh; split; [reflexivity | now left]|].
  destruct (GuideWindow_init m) as [[]|e]; cbn;
    [|exists sh; split; [reflexivity | now left]].
  eexists. split; [reflexivity|].
  intros v _. now right.
Qed.

Lemma dialog_closing_effect `{DCollab : DialogCollaborators} (i : nat)
    (w : World) (pool : list Worker) (evs : list (WorkerSignals * signal))
    (sh : list dialog) :
  exists (w' : World) (sh' : list dialog),
    exec (dialog_closing i) (mkDesk (mkSystem w pool evs) sh) =
      mkDesk (mkSystem w' pool evs) sh' /\
    advances w w' /\
    (forall v : pyval, GuideWindow v ∈ sh' -> GuideWindow v ∈ sh).
Proof.
  unfold exec, dialog_closing. desk_simpl.
  destruct (sh !! i) as [[v0|v0]|]; desk_simpl.
  - eexists _, _. split; [reflexivity|].
    split; [now apply advances_same|].
    intros v. apply list_elem_of_delete_inv.
  - eexists _, _. split; [reflexivity|].
    split; [now apply advances_same|].
    intros v. apply list_elem_of_delete_inv.
  - exists w, sh. split; [reflexivity|].
    split; [now apply advances_same | trivial].
Qed.

Lemma selection_effect `{Collab : Collaborators} (sel : list string)
    (w : World) :
  model_ok w ->
  action_model w <> PyNone ->
  exists w' : World,
    ActionButtons_on_selected_tracks_change sel w = (Returns tt, w') /\
    advances w w'.
Proof.
  intros [_ [Hnone | (r & Hmodel & Hlt)]] Hset; [contradiction|].
  destruct (lookup_lt_is_Some_2 _ _ Hlt) as [m Hheap].
  destruct (decide (sel = selected_tracks m)) as [Hsame | Hdiff].
  - rewrite (selection_unchanged sel w r m Hmodel Hheap Hsame).
    eexists. split; [reflexivity|]. now apply advances_same.
  - rewrite (selection_changed sel w r m Hmodel Hheap Hdiff).
    eexists. split; [reflexivity|].
    split; [|now left]. cbn. now rewrite length_insert.
Qed.

Lemma advances_trans (w1 w2 w3 : World) :
  advances w1 w2 -> advances w2 w3 -> advances w1 w3.
Proof.
  intros [Hlen12 Hm12] [Hlen23 Hm23]. split; [lia|].
  destruct Hm23 as [[Hmain Haction] | Hnew]; [|now right].
  destruct Hm12 as [[Hmain' Haction'] | (r & Hmain' & Haction' & Hr)].
  - left. split; congruence.
  - right. exists r. repeat split; [congruence | congruence | lia].
Qed.

Lemma desk0_ok : desk_ok desk0.
Proof.
  split; [split; reflexivity|]. split; [split; [reflexivity | now left]|].
  intros v Hin. cbn in Hin. now apply elem_of_nil in Hin.
Qed.

Section Sessions.
Context `{Collab : Collaborators} `{DCollab : DialogCollaborators}.

Lemma run_op_keeps (op : ui_op) (dk : Desk) :
  desk_ok dk ->
  desk_ok (exec (run_op op) dk) /\
  advances (world (desk dk)) (world (desk (exec (run_op op) dk))).
Proof.
  destruct dk as [[w pool evs] sh].
  intros ([Hpool Hevs] & Hok & Hguide). cbn in Hpool, Hevs, Hok, Hguide.
  subst pool evs. cbn [desk world].
  assert (Hafter : forall (w' : World) (sh' : list dialog),
    advances w w' ->
    (forall v : pyval,
       GuideWindow v ∈ sh' ->
       GuideWindow v ∈ sh \/ action_model w <> PyNone) ->
    desk_ok (mkDesk (mkSystem w' [] []) sh')).
  { intros w' sh' Hadv Hsh.
    split; [split; reflexivity|].
    split; [now apply (advances_model_ok w)|].
    cbn. intros v Hin. apply (advances_keeps_model w w' Hadv).
    destruct (Hsh v Hin) as [Hold | Hset];
      [now apply (Hguide v) | exact Hset]. }
  destruct op as [s d | s d | | | i | i sel].
  - destruct (open_directory_click_runs s d w) as (w' & Hrun & Hthr & Hadv).
    assert (Hexec :
      exec (run_op (ClickOpenDirectory s d)) (mkDesk (mkSystem w [] []) sh) =
      mkDesk (mkSystem w' [] []) sh).
    { unfold exec at 1, run_op. cbv [mbind Py_bind in_desk modify].
      cbn [desk shown]. rewrite Hrun. cbn [fst snd desk shown].
      now rewrite Hthr. }
    rewrite Hexec. split; [|exact Hadv].
    apply Hafter; [exact Hadv | now left].
  - destruct (open_archive_click_runs s d w) as (w' & Hrun & Hthr & Hadv).
    assert (Hexec :
      exec (run_op (ClickOpenArchive s d)) (mkDesk (mkSystem w [] []) sh) =
      mkDesk (mkSystem w' [] []) sh).
    { unfold exec at 1, run_op. cbv [mbind Py_bind in_desk modify].
      cbn [desk shown]. rewrite Hrun. cbn [fst snd desk shown].
      now rewrite Hthr. }
    rewrite Hexec. split; [|exact Hadv].
    apply Hafter; [exact Hadv | now left].
  - destruct (feature_view_effect w [] [] sh)
      as (w' & sh' & Hexec & Hadv & Hsh).
    cbn [run_op]. rewrite Hexec. split; [|exact Hadv].
    apply Hafter; [exact Hadv|]. intros v Hin. left. now apply Hsh.
  - destruct (configure_tracks_effect w [] [] sh) as (sh' & Hexec & Hsh).
    cbn [run_op]. rewrite Hexec.
    split; [|now apply advances_same].
    apply Hafter; [now apply advances_same | exact Hsh].
  - destruct (dialog_closing_effect i w [] [] sh)
      as (w' & sh' & Hexec & Hadv & Hsh).
    cbn [run_op]. rewrite Hexec. split; [|exact Hadv].
    apply Hafter; [exact Hadv|]. intros v Hin. left. now apply Hsh.
  - cbn [run_op]. unfold exec, dialog_selected_tracks_change. desk_simpl.
    destruct (sh !! i) as [[v0|v0]|] eqn:Hi; desk_simpl;
      try (split; [apply Hafter; [now apply advances_same | now left]
                  | now apply advances_same]).
    assert (Hset : action_model w <> PyNone)
      by (apply (Hguide v0); now apply (list_elem_of_lookup_2 _ i)).
    destruct (selection_effect sel w Hok Hset) as (w' & Hrun & Hadv).
    rewrite Hrun. cbn.
    split; [|exact Hadv].
    apply Hafter; [exact Hadv | now left].
Qed.

End Sessions.

(** X14. The window stays in order through every session: starting from a
    state where nothing is running, the central widget and
    [ActionButtons] hold the same model reference (or both [None]), that
    reference points to an existing object, and a [GuideWindow] is on
    screen only if a model is set, the same is true after any sequence of
    clicks, dialog closings and track selections, whatever the
    collaborators do. *)
Theorem session_keeps_window_in_order
    `{Collab : Collaborators} `{DCollab : DialogCollaborators}
    (ops : list ui_op) (dk : Desk) :
  desk_ok dk -> desk_ok (run_ops ops dk).
Proof.
  revert dk. induction ops as [|op ops IH]; intros dk Hok; [exact Hok|].
  cbn [run_ops]. apply IH. now apply run_op_keeps.
Qed.

Lemma session_keeps_window_in_order_witness :
  desk_ok desk0 /\
  desk_ok
    (@run_ops sample_collab sample_dialogs
       [ClickConfigureTracks;
        ClickOpenDirectory PyNone (PyStr EmptyString);
        ClickOpenArchive PyNone (PyStr "broken.zip", PyStr "zip");
        ClickOpenDirectory PyNone (PyStr "data");
        ClickConfigureTracks; ClickFeatureView;
        SelectTracks 0 ["chrom"]; CloseDialog 1; CloseDialog 0]
       desk0).
Proof.
  split; [exact desk0_ok|].
  apply (@session_keeps_window_in_order sample_collab sample_dialogs).
  exact desk0_ok.
Defined.

(** X15. No session unsets or loses the model: once [ActionButtons] holds
    a model it holds one ever after, and the heap of model objects never
    shrinks. *)
Theorem session_never_unsets_model
    `{Collab : Collaborators} `{DCollab : DialogCollaborators}
    (ops : list ui_op) (dk : Desk) :
  desk_ok dk ->
  (action_model (world (desk dk)) <> PyNone ->
   action_model (world (desk (run_ops ops dk))) <> PyNone) /\
  length (heap (world (desk dk))) <=
    length (heap (world (desk (run_ops ops dk)))).
Proof.
  intros Hok.
  assert (Hadv : advances (world (desk dk)) (world (desk (run_ops ops dk)))).
  { revert dk Hok. induction ops as [|op ops IH]; intros dk Hok.
    - now apply advances_same.
    - cbn [run_ops]. destruct (run_op_keeps op dk Hok) as [Hok' Hstep].
      exact (advances_trans _ _ _ Hstep (IH _ Hok')). }
  split; [now apply advances_keeps_model | apply Hadv].
Qed.

Lemma session_never_unsets_model_witness :
  desk_ok desk1 /\
  (action_model (world (desk desk1)) <> PyNone ->
   action_model
     (world (desk (@run_ops sample_collab sample_dialogs
                     [ClickOpenArchive PyNone (PyStr "missing", PyStr "zip");
                      ClickConfigureTracks; SelectTracks 0 [];
                      ClickOpenDirectory PyNone (PyStr "other")]
                     desk1))) <> PyNone) /\
  length (heap (world (desk desk1))) <=
    length
      (heap (world (desk (@run_ops sample_collab sample_dialogs
                            [ClickOpenArchive PyNone
                               (PyStr "missing", PyStr "zip");
                             ClickConfigureTracks; SelectTracks 0 [];
                             ClickOpenDirectory PyNone (PyStr "other")]
                            desk1)))).
Proof.
  assert (Hok : desk_ok desk1).
  { split; [split; reflexivity|].
    split; [split; [reflexivity|]; right; exists 0; split;
            [reflexivity | cbn; lia]|].
    intros v Hin. discriminate. }
  split; [exact Hok|].
  apply (@session_never_unsets_model sample_collab sample_dialogs).
  exact Hok.
Defined.

(** X16. In a window that is in order the dialog handlers never fail for
    want of a model.  When a click on Feature View or on Configure Tracks
    raises, a model is held and the exception is the one the dialog's
    constructors raised on that very model.  When a [GuideWindow] on
    screen reports a selection, [self.model] is a live model object, so
    the attribute access in [on_selected_tracks_change] succeeds, and a
    selection equal to the model's returns after the print. *)
Theorem dialog_handlers_find_the_model
    `{Collab : Collaborators} `{DCollab : DialogCollaborators} (dk : Desk) :
  desk_ok dk ->
  (forall e : exc,
     fst (ActionButtons_on_feature_view_action dk) = Raises e ->
     exists (r : ref) (m : DataModel),
       action_model (world (desk dk)) = PyModel r /\
       heap (world (desk dk)) !! r = Some m /\
       is_None (features_df m) = false /\
       feature_view_opens m = Raises e) /\
  (forall e : exc,
     fst (ActionButtons_on_configure_tracks_action_action dk) = Raises e ->
     exists (r : ref) (m : DataModel),
       action_model (world (desk dk)) = PyModel r /\
       heap (world (desk dk)) !! r = Some m /\
       is_None (guide_df m) = false /\
       GuideWindow_init m = Raises e) /\
  (forall (i : nat) (v : pyval),
     shown dk !! i = Some (GuideWindow v) ->
     exists (r : ref) (m : DataModel),
       action_model (world (desk dk)) = PyModel r /\
       heap (world (desk dk)) !! r = Some m /\
       deref (action_model (world (desk dk))) (world (desk dk)) =
         (Returns (r, m), world (desk dk)) /\
       fst (run_op (SelectTracks i (selected_tracks m)) dk) = Returns tt).
Proof.
  destruct dk as [[w pool evs] sh].
  intros ([Hpool Hevs] & Hok & Hguide). cbn in Hpool, Hevs, Hok, Hguide.
  subst pool evs. cbn [desk world shown].
  split; [|split].
  - intros e Hraise.
    destruct Hok as [_ [Hnone | (r & Hmodel & Hlt)]].
    + revert Hraise.
      unfold ActionButtons_on_feature_view_action. desk_simpl.
      rewrite Hnone. discriminate.
    + destruct (lookup_lt_is_Some_2 _ _ Hlt) as [m Hheap0].
      assert (Hheap : heap w !! r = Some m) by exact Hheap0.
      exists r, m. split; [exact Hmodel|]. split; [exact Hheap|].
      destruct (is_None (features_df m)) eqn:Hfeat.
      * revert Hraise.
        unfold ActionButtons_on_feature_view_action, deref. desk_simpl.
        rewrite Hmodel. cbn. rewrite Hheap. cbn. rewrite Hfeat.
        discriminate.
      * rewrite (feature_view_runs (mkDesk (mkSystem w [] []) sh) r m
                   Hmodel Hheap Hfeat) in Hraise.
        now split.
  - intros e.
    unfold ActionButtons_on_configure_tracks_action_action, deref.
    desk_simpl.
    destruct Hok as [_ [Hnone | (r & Hmodel & Hlt)]].
    + rewrite Hnone. discriminate.
    + destruct (lookup_lt_is_Some_2 _ _ Hlt) as [m Hheap0].
      assert (Hheap : heap w !! r = Some m) by exact Hheap0.
      rewrite Hmodel. cbn. rewrite Hheap. cbn.
      destruct (is_None (guide_df m)) eqn:Hguide_df; cbn; [discriminate|].
      destruct (GuideWindow_init m) as [[]|e0] eqn:Hinit; cbn;
        [discriminate|].
      intros [= ->]. now exists r, m.
  - intros i v Hi.
    assert (Hset : action_model w <> PyNone)
      by (apply (Hguide v); now apply (list_elem_of_lookup_2 _ i)).
    destruct Hok as [_ [Hnone | (r & Hmodel & Hlt)]]; [contradiction|].
    destruct (lookup_lt_is_Some_2 _ _ Hlt) as [m Hheap0].
    assert (Hheap : heap w !! r = Some m) by exact Hheap0.
    exists r, m. split; [exact Hmodel|]. split; [exact Hheap|].
    split.
    + unfold deref. now rewrite Hmodel, Hheap.
    + cbn [run_op]. unfold dialog_selected_tracks_change. desk_simpl.
      rewrite Hi. desk_simpl.
      now rewrite (selection_unchanged (selected_tracks m) w r m Hmodel
                     Hheap eq_refl).
Qed.

Lemma dialog_handlers_find_the_model_witness :
  desk_ok desk2 /\
  fst (@ActionButtons_on_feature_view_action failing_dialogs desk2) =
    Raises ValueError /\
  (exists (r : ref) (m : DataModel),
     action_model (world (desk desk2)) = PyModel r /\
     heap (world (desk desk2)) !! r = Some m /\
     is_None (features_df m) = false /\
     @feature_view_opens failing_dialogs m = Raises ValueError) /\
  shown desk2 !! 0 = Some (GuideWindow (PyModel 0)) /\
  (exists (r : ref) (m : DataModel),
     action_model (world (desk desk2)) = PyModel r /\
     heap (world (desk desk2)) !! r = Some m /\
     deref (action_model (world (desk desk2))) (world (desk desk2)) =
       (Returns (r, m), world (desk desk2)) /\
     fst (@run_op sample_collab failing_dialogs
            (SelectTracks 0 (selected_tracks m)) desk2) = Returns tt).
Proof.
  assert (Hok : desk_ok desk2).
  { split; [split; reflexivity|].
    split; [split; [reflexivity|]; right; exists 0; split;
            [reflexivity | cbn; lia]|].
    intros v Hin. discriminate. }
  destruct (@dialog_handlers_find_the_model sample_collab failing_dialogs
              desk2 Hok) as (Hfeature & _ & Hselect).
  split; [exact Hok|]. split; [reflexivity|].
  split; [apply Hfeature; reflexivity|].
  split; [reflexivity|].
  apply (Hselect 0 (PyModel 0)). reflexivity.
Defined.

(** ** CanvasWindow: controller callbacks *)

Lemma register_all_appends (cbs : list callback) (self : CanvasWindow) :
  register_all cbs self =
    (Returns tt,
     mkCanvasWindow (on_controller_callbacks self ++ cbs) (tk_log self)).
Proof.
  revert self. induction cbs as [|cb cbs IH]; intros self.
  - cbn. rewrite app_nil_r. now destruct self.
  - cbn [register_all]. cbv [mbind Py_bind].
    unfold CanvasWindow_register_on_controller_callback, modify.
    rewrite IH. cbn. now rewrite <- app_assoc.
Qed.

Lemma for_each_callback_app (pre post : list callback) (controller : pyval)
    (l : list tk_effect) :
  for_each_callback (pre ++ post) controller l =
    match for_each_callback pre controller l with
    | (Returns _, l1) => for_each_callback post controller l1
    | (Raises e, l1) => (Raises e, l1)
    end.
Proof.
  revert l. induction pre as [|cb pre IH]; intros l; [reflexivity|].
  cbn [app for_each_callback]. cbv [mbind Py_bind].
  destruct (cb controller l) as [[[]|e] l1]; [apply IH | reflexivity].
Qed.

Lemma for_each_probe (names : list string) (controller : pyval)
    (l : list tk_effect) :
  for_each_callback (probe <$> names) controller l =
    (Returns tt, l ++ ((fun n => Called n controller) <$> names)).
Proof.
  revert l. induction names as [|n names IH]; intros l.
  - cbn. now rewrite app_nil_r.
  - cbn [fmap list_fmap for_each_callback]. cbv [mbind Py_bind].
    unfold probe at 1, tk_do, modify. rewrite IH.
    now rewrite <- app_assoc.
Qed.

(** X17. Callbacks are called in registration order: after callbacks have
    been registered one by one on a window, [connect_controller] calls
    each of them once with the controller, first registered first, and
    draws the canvas once, after the last callback.  Registering calls
    nothing. *)
Theorem connect_controller_calls_in_registration_order
    (earlier later : list string) (controller : pyval)
    (l : list tk_effect) :
  register_all (probe <$> later) (mkCanvasWindow (probe <$> earlier) l) =
    (Returns tt, mkCanvasWindow (probe <$> (earlier ++ later)) l) /\
  (register_all (probe <$> later) ;;
   CanvasWindow_connect_controller controller)
    (mkCanvasWindow (probe <$> earlier) l) =
    (Returns tt,
     mkCanvasWindow (probe <$> (earlier ++ later))
       (l ++ ((fun n => Called n controller) <$> (earlier ++ later))
          ++ [CanvasDraw])).
Proof.
  assert (Hreg :
    register_all (probe <$> later) (mkCanvasWindow (probe <$> earlier) l) =
    (Returns tt, mkCanvasWindow (probe <$> (earlier ++ later)) l)).
  { rewrite register_all_appends. cbn. now rewrite fmap_app. }
  split; [exact Hreg|].
  cbv [mbind Py_bind]. rewrite Hreg.
  unfold CanvasWindow_connect_controller, in_tk, gets, tk_do, modify.
  cbv [mbind Py_bind]. cbn [on_controller_callbacks tk_log].
  rewrite for_each_probe. cbv beta iota zeta.
  cbn [on_controller_callbacks tk_log]. now rewrite <- app_assoc.
Qed.

(** X18. [connect_controller] does not guard its callbacks: when one of
    them raises, the exception leaves [connect_controller], the callbacks
    registered after it are not called and the canvas is not drawn. *)
Theorem connect_controller_stops_at_raising_callback
    (before : list string) (bad : callback) (rest : list callback)
    (controller : pyval) (l l1 : list tk_effect) (e : exc) :
  bad controller (l ++ ((fun n => Called n controller) <$> before)) =
    (Raises e, l1) ->
  CanvasWindow_connect_controller controller
    (mkCanvasWindow ((probe <$> before) ++ bad :: rest) l) =
    (Raises e, mkCanvasWindow ((probe <$> before) ++ bad :: rest) l1).
Proof.
  intros Hbad.
  unfold CanvasWindow_connect_controller, in_tk, gets.
  cbv [mbind Py_bind]. cbn [on_controller_callbacks tk_log].
  rewrite for_each_callback_app, for_each_probe.
  cbn [for_each_callback]. cbv [mbind Py_bind].
  now rewrite Hbad.
Qed.

Lemma connect_controller_stops_at_raising_callback_witness :
  failing_callback (PyStr "controller")
    ([CanvasDraw] ++
       ((fun n => Called n (PyStr "controller")) <$> ["heatmap"])) =
    (Raises ValueError, [CanvasDraw; Called "heatmap" (PyStr "controller")])
  /\
  CanvasWindow_connect_controller (PyStr "controller")
    (mkCanvasWindow
       ((probe <$> ["heatmap"]) ++
          failing_callback :: [probe "sector"])
       [CanvasDraw]) =
    (Raises ValueError,
     mkCanvasWindow
       ((probe <$> ["heatmap"]) ++
          failing_callback :: [probe "sector"])
       [CanvasDraw; Called "heatmap" (PyStr "controller")]).
Proof.
  split; [reflexivity|].
  apply (connect_controller_stops_at_raising_callback ["heatmap"]
           failing_callback [probe "sector"]
           (PyStr "controller") [CanvasDraw]
           [CanvasDraw; Called "heatmap" (PyStr "controller")] ValueError).
  reflexivity.
Defined.
